(** * Sales analytics pipeline: a shallow embedding of [sales_pipeline.py]
      and [export_tables.py], and the properties of its stages.

    The pandas frames of the source are modelled as a list of column names
    together with a list of rows, a row being a total map from column names
    to cells.  Numeric cells hold finite exact rationals and the arithmetic
    on them is exact.  It is numpy's arithmetic on an int64 column as long
    as the results stay within the int64 range (beyond it int64 arithmetic
    wraps around), and numpy's arithmetic on a float64 column up to
    rounding; the properties that depend on a numeric result state the
    range they need.  Timestamps hold nanoseconds since 1970-01-01.  The
    header of the raw frame is taken after [normalize_cols], with distinct
    names. *)

From Stdlib Require Import List String Ascii ZArith QArith Qround Qabs Bool Lia Lqa Sorted.
Import ListNotations.
Open Scope string_scope.

(** ** Cells, rows and frames *)

(** A cell.  [VNull] stands for NaN / None / NaT, which pandas treats alike
    as missing. *)
Inductive value : Type :=
| VNull
| VStr (s : string)
| VNum (q : Q)
| VDate (t : Z).

Definition Row : Type := string -> value.

Record DataFrame : Type := mkFrame {
  columns : list string;
  rows : list Row
}.

(** [pd.DataFrame()] *)
Definition empty_frame : DataFrame := mkFrame [] [].

Definition null_row : Row := fun _ => VNull.

Definition upd (r : Row) (c : string) (v : value) : Row :=
  fun k => if String.eqb k c then v else r k.

Definition mem (c : string) (cols : list string) : bool :=
  existsb (String.eqb c) cols.

(** [c in f.columns] *)
Definition has_col (f : DataFrame) (c : string) : bool := mem c (columns f).

Definition add_col (c : string) (cols : list string) : list string :=
  if mem c cols then cols else cols ++ [c].

(** [f[c]] as the list of its cells, top to bottom. *)
Definition column (f : DataFrame) (c : string) : list value :=
  map (fun r => r c) (rows f).

Fixpoint zip_upd (rs : list Row) (c : string) (vs : list value) : list Row :=
  match rs with
  | [] => []
  | r :: rs' =>
      match vs with
      | [] => upd r c VNull :: zip_upd rs' c []
      | v :: vs' => upd r c v :: zip_upd rs' c vs'
      end
  end.

(** [f[c] = series].  A frame that has no row yet takes its rows from the
    series, the columns it already had reading as null; otherwise the
    series is aligned with the rows by position (all series of the pipeline
    carry the index of the raw frame). *)
Definition set_series (f : DataFrame) (c : string) (vs : list value) : DataFrame :=
  mkFrame (add_col c (columns f))
          (match rows f with
           | [] => map (fun v => upd null_row c v) vs
           | _ :: _ => zip_upd (rows f) c vs
           end).

(** [f[c] = v] for a scalar [v]: every existing row gets [v]. *)
Definition set_scalar (f : DataFrame) (c : string) (v : value) : DataFrame :=
  mkFrame (add_col c (columns f)) (map (fun r => upd r c v) (rows f)).

(** [f[c] = g(f[c])], cell by cell. *)
Definition map_col (f : DataFrame) (c : string) (g : value -> value) : DataFrame :=
  mkFrame (columns f) (map (fun r => upd r c (g (r c))) (rows f)).

Definition filter_rows (f : DataFrame) (p : Row -> bool) : DataFrame :=
  mkFrame (columns f) (filter p (rows f)).

Definition isnull (v : value) : bool :=
  match v with VNull => true | _ => false end.

(** [series.fillna(0)] on one cell *)
Definition fillna0 (v : value) : value :=
  match v with VNull => VNum 0 | _ => v end.

(** [x > 0] on one cell of a numeric column; NaN compares false. *)
Definition gt0 (v : value) : bool :=
  match v with
  | VNum q => negb (Qle_bool q 0)
  | _ => false
  end.

(** [f.dropna(subset=cols)] *)
Definition dropna (f : DataFrame) (subset : list string) : DataFrame :=
  filter_rows f (fun r => forallb (fun c => negb (isnull (r c))) subset).

(** ** Header normalisation ([normalize_cols])

    Header names are taken to be ASCII text: on it [str.strip],
    [str.lower] and [str.replace] act character by character as below. *)

(** [str.isspace] on an ASCII character: tab to carriage return, the four
    separators 28 to 31, and the space. *)
Definition is_space (c : ascii) : bool :=
  let n := nat_of_ascii c in
  ((9 <=? n) && (n <=? 13) || (28 <=? n) && (n <=? 31) || (n =? 32))%nat.

Definition lower_char (c : ascii) : ascii :=
  let n := nat_of_ascii c in
  if ((65 <=? n) && (n <=? 90))%nat then ascii_of_nat (n + 32) else c.

(** [s.replace(old, new)] for one-character [old] and [new]. *)
Definition replace_char (old new c : ascii) : ascii :=
  if Ascii.eqb c old then new else c.

Fixpoint map_string (f : ascii -> ascii) (s : string) : string :=
  match s with
  | EmptyString => EmptyString
  | String c s' => String (f c) (map_string f s')
  end.

Fixpoint lstrip (s : string) : string :=
  match s with
  | EmptyString => EmptyString
  | String c s' => if is_space c then lstrip s' else s
  end.

Fixpoint rstrip (s : string) : string :=
  match s with
  | EmptyString => EmptyString
  | String c s' =>
      match rstrip s' with
      | EmptyString => if is_space c then EmptyString else String c EmptyString
      | String c' s'' => String c (String c' s'')
      end
  end.

(** [s.strip()] *)
Definition strip (s : string) : string := rstrip (lstrip s).

(** [str(c).strip().lower().replace(" ", "_").replace("-", "_")] *)
Definition normalize_col (c : string) : string :=
  map_string (replace_char "-" "_")
    (map_string (replace_char " " "_")
       (map_string lower_char (strip c))).

Definition normalize_cols (cols : list string) : list string :=
  map normalize_col cols.

(** What the three character-wise steps do to one character. *)
Definition normal_char (c : ascii) : ascii :=
  replace_char "-" "_" (replace_char " " "_" (lower_char c)).

Definition is_upper (c : ascii) : bool :=
  let n := nat_of_ascii c in ((65 <=? n) && (n <=? 90))%nat.

Fixpoint string_forall (p : ascii -> bool) (s : string) : bool :=
  match s with
  | EmptyString => true
  | String c s' => p c && string_forall p s'
  end.

(** ** Column resolver *)

Definition expected_candidates : list (string * list string) :=
  [ ("order_id", ["order_id"; "order_id"]);
    ("order_date", ["order_date"; "orderdate"; "order_date"]);
    ("ship_date", ["ship_date"; "shipdate"]);
    ("ship_mode", ["ship_mode"; "shipmode"]);
    ("customer_id", ["customer_id"; "customerid"]);
    ("customer_name", ["customer_name"; "customername"; "customer"]);
    ("segment", ["segment"]);
    ("country", ["country"]);
    ("city", ["city"]);
    ("state", ["state"]);
    ("region", ["region"]);
    ("postal_code", ["postal_code"; "postalcode"; "zip"; "zipcode"]);
    ("product_id", ["product_id"; "productid"]);
    ("product_name", ["product_name"; "productname"; "product"]);
    ("category", ["category"]);
    ("sub_category", ["sub_category"; "sub-category"; "subcategory"]);
    ("sales", ["sales"; "sales_amount"]);
    ("quantity", ["quantity"; "qty"]);
    ("discount", ["discount"]);
    ("profit", ["profit"]) ].

Fixpoint dict_get {A : Type} (d : list (string * A)) (k : string) : option A :=
  match d with
  | [] => None
  | (k', v) :: d' => if String.eqb k k' then Some v else dict_get d' k
  end.

(** The inner loop of the resolver: the first candidate that is a column. *)
Definition find_first (candidates cols : list string) : option string :=
  find (fun c => mem c cols) candidates.

(** [col_map], from the (already normalised) header of the raw frame. *)
Definition col_map (cols : list string) : list (string * option string) :=
  map (fun lc => (fst lc, find_first (snd lc) cols)) expected_candidates.

(** [col_map.get(logical)]: absent when the key is unknown or maps to None. *)
Definition resolved (cols : list string) (logical : string) : option string :=
  match dict_get (col_map cols) logical with
  | Some (Some actual) => Some actual
  | _ => None
  end.

(** ** Row sanitizer *)

Definition copy_col (df work : DataFrame) (logical_name : string)
    (target_name : option string) : DataFrame :=
  let actual := resolved (columns df) logical_name in
  let target := match target_name with Some t => t | None => logical_name end in
  match actual with
  | Some a => set_series work target (column df a)
  | None => set_scalar work target VNull
  end.

Definition copied_fields : list string :=
  [ "order_id"; "order_date"; "ship_date"; "ship_mode"; "customer_id";
    "customer_name"; "segment"; "country"; "city"; "state"; "region";
    "postal_code"; "product_id"; "product_name"; "category"; "sub_category";
    "sales"; "quantity"; "discount"; "profit" ].

(** The twenty [copy_col] calls, in source order, on an empty frame. *)
Definition build_work (df : DataFrame) : DataFrame :=
  fold_left (fun w l => copy_col df w l None) copied_fields empty_frame.

Definition numeric_cols : list string := ["sales"; "quantity"; "discount"; "profit"].
Definition critical_keys : list string :=
  ["order_id"; "customer_id"; "product_id"; "order_date"].

Section Pipeline.

(** What [pd.to_datetime(_, errors='coerce')] and
    [pd.to_numeric(_, errors='coerce')] make of a cell that is neither
    missing nor already of the target type; [None] is a failed parse. *)
Variable parse_datetime : value -> option Z.
Variable parse_numeric : value -> option Q.

Definition to_datetime_cell (v : value) : value :=
  match v with
  | VNull => VNull
  | VDate t => VDate t
  | _ => match parse_datetime v with Some t => VDate t | None => VNull end
  end.

Definition to_numeric_cell (v : value) : value :=
  match v with
  | VNull => VNull
  | VNum q => VNum q
  | _ => match parse_numeric v with Some q => VNum q | None => VNull end
  end.

(** The frame after the copies and the date and numeric coercions.  A
    column that already has a datetime dtype holds only dates and nulls, on
    which [to_datetime_cell] is the identity, so the dtype test of the
    source needs no branch here. *)
Definition coerced (df : DataFrame) : DataFrame :=
  let work := build_work df in
  let work := map_col work "order_date" to_datetime_cell in
  let work := map_col work "ship_date" to_datetime_cell in
  fold_left (fun w numcol =>
               if has_col w numcol then map_col w numcol to_numeric_cell else w)
            numeric_cols work.

(** What the coercions do to one row of the copied frame. *)
Definition coerce_row (r : Row) : Row :=
  let r := upd r "order_date" (to_datetime_cell (r "order_date")) in
  let r := upd r "ship_date" (to_datetime_cell (r "ship_date")) in
  let r := upd r "sales" (to_numeric_cell (r "sales")) in
  let r := upd r "quantity" (to_numeric_cell (r "quantity")) in
  let r := upd r "discount" (to_numeric_cell (r "discount")) in
  upd r "profit" (to_numeric_cell (r "profit")).

Definition keys_present (r : Row) : bool :=
  forallb (fun c => negb (isnull (r c))) critical_keys.

Definition quantity_positive (r : Row) : bool :=
  gt0 (fillna0 (r "quantity")).

(** The working frame: required-field drop, then quantity-positivity drop. *)
Definition sanitize (df : DataFrame) : DataFrame :=
  let work := dropna (coerced df) critical_keys in
  if has_col work "quantity" then filter_rows work quantity_positive else work.

End Pipeline.

(** ** Calendar

    Timestamps count nanoseconds from 1970-01-01T00:00.  The civil date of
    a day number is obtained by walking the proleptic Gregorian calendar
    day by day from the epoch, forwards or backwards. *)

Record civil : Type := mkCivil { year : Z; month : Z; day : Z }.

Definition is_leap (y : Z) : bool :=
  ((y mod 4 =? 0) && (negb (y mod 100 =? 0) || (y mod 400 =? 0)))%Z.

Definition days_in_month (y m : Z) : Z :=
  (if m =? 2 then (if is_leap y then 29 else 28)
   else if (m =? 4) || (m =? 6) || (m =? 9) || (m =? 11) then 30
   else 31)%Z.

Definition next_day (c : civil) : civil :=
  (if day c <? days_in_month (year c) (month c)
   then mkCivil (year c) (month c) (day c + 1)
   else if month c <? 12 then mkCivil (year c) (month c + 1) 1
   else mkCivil (year c + 1) 1 1)%Z.

Definition prev_day (c : civil) : civil :=
  (if 1 <? day c then mkCivil (year c) (month c) (day c - 1)
   else if 1 <? month c
        then mkCivil (year c) (month c - 1) (days_in_month (year c) (month c - 1))
   else mkCivil (year c - 1) 12 31)%Z.

Definition epoch : civil := mkCivil 1970 1 1.

Definition civil_of_days (n : Z) : civil :=
  if (0 <=? n)%Z then Nat.iter (Z.to_nat n) next_day epoch
  else Nat.iter (Z.to_nat (- n)) prev_day epoch.

Definition NS_PER_DAY : Z := 86400000000000.

Definition day_index (t : Z) : Z := (t / NS_PER_DAY)%Z.

Definition civil_of (t : Z) : civil := civil_of_days (day_index t).

(** [strftime('%Y%m%d').astype(int)] *)
Definition date_key (c : civil) : Z :=
  (year c * 10000 + month c * 100 + day c)%Z.

(** [dt.dayofweek], Monday = 0; the epoch was a Thursday. *)
Definition day_of_week (t : Z) : Z := ((day_index t + 3) mod 7)%Z.

Definition quarter (c : civil) : Z := ((month c - 1) / 3 + 1)%Z.

Definition month_abbr (m : Z) : string :=
  nth (Z.to_nat (m - 1))
      ["Jan"; "Feb"; "Mar"; "Apr"; "May"; "Jun";
       "Jul"; "Aug"; "Sep"; "Oct"; "Nov"; "Dec"] "".

Definition weekday_name (d : Z) : string :=
  nth (Z.to_nat d)
      ["Monday"; "Tuesday"; "Wednesday"; "Thursday"; "Friday";
       "Saturday"; "Sunday"] "".

Definition VInt (z : Z) : value := VNum (inject_Z z).

(** ** Results of steps that may raise *)

Inductive result (A : Type) : Type :=
| Ok (a : A)
| Raise (msg : string).
Arguments Ok {A} a.
Arguments Raise {A} msg.

Definition bind {A B : Type} (m : result A) (k : A -> result B) : result B :=
  match m with
  | Ok a => k a
  | Raise msg => Raise msg
  end.

Notation "x <- m ;; k" := (bind m (fun x => k))
  (at level 61, m at next level, right associativity).

(** ** Dimension builder *)

Definition value_eqb (a b : value) : bool :=
  match a, b with
  | VNull, VNull => true
  | VStr s, VStr t => String.eqb s t
  | VNum p, VNum q => Qeq_bool p q
  | VDate s, VDate t => Z.eqb s t
  | _, _ => false
  end.

Definition row_eqb (cols : list string) (r1 r2 : Row) : bool :=
  forallb (fun c => value_eqb (r1 c) (r2 c)) cols.

(** [f[cols]] *)
Definition project (f : DataFrame) (cols : list string) : DataFrame :=
  mkFrame cols (map (fun r k => if mem k cols then r k else VNull) (rows f)).

(** The rows [drop_duplicates] keeps: the first of each class of rows
    equal on [cols] (missing cells compare equal to each other). *)
Fixpoint keep_first (cols : list string) (seen rs : list Row) : list Row :=
  match rs with
  | [] => []
  | r :: rs' =>
      if existsb (row_eqb cols r) seen then keep_first cols seen rs'
      else r :: keep_first cols (r :: seen) rs'
  end.

Definition drop_duplicates (f : DataFrame) : DataFrame :=
  mkFrame (columns f) (keep_first (columns f) [] (rows f)).

Definition customer_cols : list string :=
  ["customer_id"; "customer_name"; "segment"; "country"; "city"; "state";
   "region"; "postal_code"].

Definition product_cols : list string :=
  ["product_id"; "product_name"; "category"; "sub_category"].

Definition dim_customer (work : DataFrame) : DataFrame :=
  drop_duplicates (project work customer_cols).

Definition dim_product (work : DataFrame) : DataFrame :=
  drop_duplicates (project work product_cols).

Definition dates_of (vs : list value) : list Z :=
  flat_map (fun v => match v with VDate t => [t] | _ => [] end) vs.

(** [series.min()] and [series.max()] of a datetime column; NaT when the
    column has no date. *)
Definition date_min (vs : list value) : value :=
  match dates_of vs with
  | [] => VNull
  | t :: ts => VDate (fold_left Z.min ts t)
  end.

Definition date_max (vs : list value) : value :=
  match dates_of vs with
  | [] => VNull
  | t :: ts => VDate (fold_left Z.max ts t)
  end.

(** [pd.date_range(start, end, freq='D')]: [start], [start] + 1 day, ...
    up to [end]; pandas refuses a NaT bound with a ValueError. *)
Definition date_range (start stop : value) : result (list Z) :=
  match start, stop with
  | VDate s, VDate e =>
      Ok (map (fun k => (s + Z.of_nat k * NS_PER_DAY)%Z)
              (seq 0 (Z.to_nat ((e - s) / NS_PER_DAY + 1))))
  | _, _ => Raise "Neither `start` nor `end` can be NaT"
  end.

Definition dim_date_cols : list string :=
  ["date"; "date_key"; "day"; "month"; "month_name"; "year"; "quarter";
   "day_of_week"; "day_name"; "is_weekend"].

Definition dim_date_row (t : Z) : Row :=
  let c := civil_of t in
  let dow := day_of_week t in
  fun k =>
    if k =? "date" then VDate t
    else if k =? "date_key" then VInt (date_key c)
    else if k =? "day" then VInt (day c)
    else if k =? "month" then VInt (month c)
    else if k =? "month_name" then VStr (month_abbr (month c))
    else if k =? "year" then VInt (year c)
    else if k =? "quarter" then VInt (quarter c)
    else if k =? "day_of_week" then VInt dow
    else if k =? "day_name" then VStr (weekday_name dow)
    else if k =? "is_weekend" then VInt (if ((dow =? 5) || (dow =? 6))%Z then 1 else 0)
    else VNull.

Definition dim_date (work : DataFrame) : result DataFrame :=
  let min_date := date_min (column work "order_date") in
  let max_date := date_max (column work "order_date") in
  date_range <- date_range min_date max_date ;;
  Ok (mkFrame dim_date_cols (map dim_date_row date_range)).

(** ** Fact builder *)

(** [f.rename(columns={old: new})] *)
Definition rename_col (f : DataFrame) (old new : string) : DataFrame :=
  mkFrame (map (fun c => if c =? old then new else c) (columns f))
          (map (fun r k => if k =? new then r old
                           else if k =? old then VNull else r k) (rows f)).

Definition is_date (v : value) : bool :=
  match v with VDate _ => true | _ => false end.

Definition order_date_key_cell (v : value) : value :=
  match v with
  | VDate t => VInt (date_key (civil_of t))
  | _ => VNull
  end.

(** Sum of two numeric cells, exact; NaN is absorbing.  The sum numpy
    stores is this one when it lies within the int64 range (an int64 sum
    beyond it wraps around), up to rounding on float64 columns. *)
Definition vadd (a b : value) : value :=
  match a, b with
  | VNum x, VNum y => VNum (x + y)
  | _, _ => VNull
  end.

(** The outcome of an IEEE division: a finite quotient, or the infinity or
    NaN that a zero divisor (or a NaN operand) yields without raising. *)
Inductive quotient : Type :=
| Finite (q : Q)
| NotFinite.

Definition float_div (a b : value) : quotient :=
  match a, b with
  | VNum x, VNum y => if Qeq_bool y 0 then NotFinite else Finite (x / y)
  | _, _ => NotFinite
  end.

Definition cell_of_quotient (d : quotient) : value :=
  match d with Finite q => VNum q | NotFinite => VNull end.

(** [np.where(cond, xs, y)]: both [cond] and [xs] are whole columns,
    computed before the selection. *)
Fixpoint np_where (cond : list bool) (xs : list quotient) (y : value) : list value :=
  match cond, xs with
  | c :: cond', x :: xs' =>
      (if c then cell_of_quotient x else y) :: np_where cond' xs' y
  | _, _ => []
  end.

Definition keep_cols : list string :=
  ["sales_id"; "order_id"; "order_date"; "order_date_key";
   "ship_date"; "ship_mode";
   "customer_id"; "product_id";
   "country"; "city"; "state"; "region";
   "quantity"; "sales_amount"; "gross_sales";
   "discount"; "discount_pct"; "profit"].

(** The fact frame before the column selection. *)
Definition fact_wide (work : DataFrame) : DataFrame :=
  let fact_sales := work in
  let fact_sales :=
    set_series fact_sales "order_date_key"
               (map order_date_key_cell (column fact_sales "order_date")) in
  let fact_sales := rename_col fact_sales "sales" "sales_amount" in
  let fact_sales :=
    set_series fact_sales "sales_id"
               (map (fun i => VInt (Z.of_nat i + 1))
                    (seq 0 (List.length (rows fact_sales)))) in
  let fact_sales :=
    set_series fact_sales "gross_sales"
               (map (fun r => vadd (fillna0 (r "sales_amount")) (fillna0 (r "discount")))
                    (rows fact_sales)) in
  set_series fact_sales "discount_pct"
             (np_where (map gt0 (column fact_sales "gross_sales"))
                       (map (fun r => float_div (fillna0 (r "discount")) (r "gross_sales"))
                            (rows fact_sales))
                       (VNum 0)).

Definition keep_existing (fact_sales : DataFrame) : list string :=
  filter (has_col fact_sales) keep_cols.

(** [fact_sales]; the integer conversion of [order_date_key] raises on a
    row that has no order date. *)
Definition build_fact (work : DataFrame) : result DataFrame :=
  if forallb is_date (column work "order_date") then
    let wide := fact_wide work in
    Ok (project wide (keep_existing wide))
  else Raise "cannot convert float NaN to integer".

(** ** Metrics engine *)

(** The order in which [groupby] and [sort_values] arrange keys: numbers by
    value, strings by code point, dates by instant; numbers come before
    dates and dates before strings when a key column mixes them. *)
Definition value_ltb (a b : value) : bool :=
  match a, b with
  | VNum x, VNum y => negb (Qle_bool y x)
  | VDate s, VDate t => (s <? t)%Z
  | VStr s, VStr t => String.ltb s t
  | VNum _, VDate _ => true
  | VNum _, VStr _ => true
  | VDate _, VStr _ => true
  | _, _ => false
  end.

Fixpoint keys_leb (cols : list string) (r1 r2 : Row) : bool :=
  match cols with
  | [] => true
  | c :: cs =>
      if value_ltb (r1 c) (r2 c) then true
      else if value_ltb (r2 c) (r1 c) then false
      else keys_leb cs r1 r2
  end.

Fixpoint insert_sorted {A : Type} (leb : A -> A -> bool) (x : A) (l : list A) : list A :=
  match l with
  | [] => [x]
  | y :: l' => if leb x y then x :: l else y :: insert_sorted leb x l'
  end.

(** A stable sort. *)
Definition sort_by {A : Type} (leb : A -> A -> bool) (l : list A) : list A :=
  fold_right (insert_sorted leb) [] l.

Definition no_null (cols : list string) (r : Row) : bool :=
  forallb (fun c => negb (isnull (r c))) cols.

(** The group keys of [f.groupby(cols)]: the distinct key tuples without a
    missing component, sorted. *)
Definition group_keys (cols : list string) (rs : list Row) : list Row :=
  sort_by (keys_leb cols) (keep_first cols [] (filter (no_null cols) rs)).

Definition groupby (f : DataFrame) (cols : list string) : list (Row * list Row) :=
  map (fun k => (k, filter (row_eqb cols k) (rows f))) (group_keys cols (rows f)).

Inductive aggfunc : Type := Sum | Nunique | Count | Min | Max.

(** The sum of the numbers of a group, exact, missing cells skipped; the
    same range applies as for [vadd]. *)
Definition sum_cells (vs : list value) : Q :=
  fold_left (fun acc v => match v with VNum q => acc + q | _ => acc end) vs 0.

Fixpoint distinct_values (seen vs : list value) : list value :=
  match vs with
  | [] => []
  | v :: vs' =>
      if isnull v || existsb (value_eqb v) seen then distinct_values seen vs'
      else v :: distinct_values (v :: seen) vs'
  end.

(** One aggregate of one group; [Min] and [Max] are applied to datetime
    columns only. *)
Definition apply_agg (fn : aggfunc) (vs : list value) : value :=
  match fn with
  | Sum => VNum (sum_cells vs)
  | Nunique => VInt (Z.of_nat (List.length (distinct_values [] vs)))
  | Count => VInt (Z.of_nat (List.length (filter (fun v => negb (isnull v)) vs)))
  | Min => date_min vs
  | Max => date_max vs
  end.

(** [groupby(keys).agg(name=(column, func), ...).reset_index()] *)
Definition agg (groups : list (Row * list Row)) (keys : list string)
    (spec : list (string * (string * aggfunc))) : DataFrame :=
  mkFrame (keys ++ map fst spec)
          (map (fun g k =>
                  if mem k keys then fst g k
                  else match dict_get spec k with
                       | Some (c, fn) => apply_agg fn (map (fun r => r c) (snd g))
                       | None => VNull
                       end)
               groups).

Definition numbers_of (vs : list value) : list Q :=
  flat_map (fun v => match v with VNum q => [q] | _ => [] end) vs.

(** [series.quantile(p)], linear interpolation between the two order
    statistics around the position [(n - 1) * p], in exact arithmetic; NaN
    on an empty series.  pandas returns the float64 nearest to it. *)
Definition quantile (vs : list value) (p : Q) : value :=
  let s := sort_by Qle_bool (numbers_of vs) in
  match s with
  | [] => VNull
  | _ :: _ =>
      let h := inject_Z (Z.of_nat (List.length s) - 1) * p in
      let i := Qfloor h in
      let lo := nth (Z.to_nat i) s 0 in
      let hi := nth (Nat.min (Z.to_nat i + 1) (List.length s - 1)) s 0 in
      VNum (lo + (hi - lo) * (h - inject_Z i))
  end.

(** [x <= y] on numeric cells; false as soon as one side is NaN. *)
Definition vle (x y : value) : bool :=
  match x, y with
  | VNum a, VNum b => Qle_bool a b
  | _, _ => false
  end.

Definition scorer (q25 q50 q75 x : value) : Z :=
  if vle x q25 then 1
  else if vle x q50 then 2
  else if vle x q75 then 3
  else 4.

Definition score_from_quantiles (series : list value) : list value :=
  let q25 := quantile series (1 # 4) in
  let q50 := quantile series (1 # 2) in
  let q75 := quantile series (3 # 4) in
  map (fun x => VInt (scorer q25 q50 q75 x)) series.

(** [5 - score] *)
Definition five_minus (v : value) : value :=
  match v with VNum x => VNum (5 - x) | _ => VNull end.

(** [(a - b).days] *)
Definition days_between (a b : value) : value :=
  match a, b with
  | VDate x, VDate y => VInt ((x - y) / NS_PER_DAY)
  | _, _ => VNull
  end.

(** [customer_metrics] up to the R, F and M scores; [now] is the clock the
    source falls back to when the fact frame has no order date column. *)
Definition customer_metrics (now : Z) (fact_sales : DataFrame) : DataFrame :=
  let order_id_col := if has_col fact_sales "order_id" then "order_id" else "sales_id" in
  let cm :=
    agg (groupby fact_sales ["customer_id"]) ["customer_id"]
        [ ("total_revenue", ("sales_amount", Sum));
          ("total_profit", ("profit", Sum));
          ("total_orders",
           (order_id_col, if has_col fact_sales order_id_col then Nunique else Count));
          ("total_quantity", ("quantity", Sum));
          ("first_order_date", ("order_date", Min));
          ("last_order_date", ("order_date", Max)) ] in
  let max_order_date :=
    if has_col fact_sales "order_date" then date_max (column fact_sales "order_date")
    else VDate now in
  let cm :=
    set_series cm "days_since_last_order"
               (map (fun r => days_between max_order_date (r "last_order_date")) (rows cm)) in
  let cm :=
    set_series cm "avg_order_value"
               (np_where (map gt0 (column cm "total_orders"))
                         (map (fun r => float_div (r "total_revenue") (r "total_orders"))
                              (rows cm))
                         (VNum 0)) in
  let cm :=
    if has_col cm "days_since_last_order" then
      let r_score := score_from_quantiles (column cm "days_since_last_order") in
      set_series cm "R" (map five_minus r_score)
    else set_scalar cm "R" (VInt 1) in
  let cm := set_series cm "F" (score_from_quantiles (column cm "total_orders")) in
  set_series cm "M" (score_from_quantiles (column cm "total_revenue")).

Definition year_cell (v : value) : value :=
  match v with VDate t => VInt (year (civil_of t)) | _ => VNull end.

Definition month_cell (v : value) : value :=
  match v with VDate t => VInt (month (civil_of t)) | _ => VNull end.

(** [series.cumsum()], exact: NaN cells stay NaN and are skipped by the
    sum; the same range applies as for [vadd]. *)
Fixpoint cumsum_from (acc : Q) (vs : list value) : list value :=
  match vs with
  | [] => []
  | VNum q :: vs' => VNum (acc + q) :: cumsum_from (acc + q) vs'
  | _ :: vs' => VNull :: cumsum_from acc vs'
  end.

Definition cumsum (vs : list value) : list value := cumsum_from 0 vs.

Definition sort_values (f : DataFrame) (by_cols : list string) : DataFrame :=
  mkFrame (columns f) (sort_by (keys_leb by_cols) (rows f)).

(** The monthly step: it adds [year] and [month] to the fact frame itself
    and returns it with the monthly table. *)
Definition monthly_sales (fact_sales : DataFrame) : DataFrame * DataFrame :=
  let order_id_col := if has_col fact_sales "order_id" then "order_id" else "sales_id" in
  let order_agg := if has_col fact_sales order_id_col then Nunique else Count in
  if has_col fact_sales "order_date" && has_col fact_sales "sales_amount" then
    let fact_sales :=
      set_series fact_sales "year" (map year_cell (column fact_sales "order_date")) in
    let fact_sales :=
      set_series fact_sales "month" (map month_cell (column fact_sales "order_date")) in
    let monthly :=
      agg (groupby fact_sales ["year"; "month"]) ["year"; "month"]
          [ ("monthly_revenue", ("sales_amount", Sum));
            ("monthly_profit",
             if has_col fact_sales "profit" then ("profit", Sum) else ("sales_amount", Sum));
            ("total_orders", (order_id_col, order_agg)) ] in
    let monthly := sort_values monthly ["year"; "month"] in
    let monthly :=
      set_series monthly "cumulative_revenue" (cumsum (column monthly "monthly_revenue")) in
    (fact_sales, monthly)
  else (fact_sales, empty_frame).

(** ** Sink writer *)

Definition Database : Type := list (string * DataFrame).

Definition TABLE_PREFIX : string := "sa_".

(** [df_obj.empty] *)
Definition frame_empty (f : DataFrame) : bool :=
  match columns f, rows f with
  | _ :: _, _ :: _ => false
  | _, _ => true
  end.

(** [to_sql(name, if_exists='replace')] *)
Definition write_table (db : Database) (name : string) (f : DataFrame) : Database :=
  (name, f) :: filter (fun e => negb (fst e =? name)) db.

Definition to_sql_safe (db : Database) (df_obj : DataFrame) (name : string) : Database :=
  if frame_empty df_obj then db else write_table db (TABLE_PREFIX ++ name) df_obj.

Definition pipeline (parse_datetime : value -> option Z)
    (parse_numeric : value -> option Q) (now : Z)
    (db : Database) (df : DataFrame) : result Database :=
  let work := sanitize parse_datetime parse_numeric df in
  let dim_customer := dim_customer work in
  let dim_product := dim_product work in
  dim_date <- dim_date work ;;
  fact_sales <- build_fact work ;;
  let customer_metrics := customer_metrics now fact_sales in
  let '(fact_sales, monthly_sales) := monthly_sales fact_sales in
  let db := to_sql_safe db dim_customer "dim_customer" in
  let db := to_sql_safe db dim_product "dim_product" in
  let db := to_sql_safe db dim_date "dim_date" in
  let db := to_sql_safe db fact_sales "fact_sales" in
  let db := to_sql_safe db customer_metrics "customer_metrics" in
  let db := to_sql_safe db monthly_sales "monthly_sales" in
  Ok db.

(** ** Flat-file export ([export_tables.py]) *)

Definition tables : list string :=
  ["sa_fact_sales"; "sa_dim_customer"; "sa_dim_product"; "sa_dim_date";
   "sa_customer_metrics"; "sa_monthly_sales"].

(** [pd.read_sql_query("SELECT * FROM table", conn)] *)
Definition read_sql_query (db : Database) (table : string) : result DataFrame :=
  match dict_get db table with
  | Some f => Ok f
  | None => Raise ("no such table: " ++ table)
  end.

(** The export directory: file name to the frame written as CSV. *)
Definition Exports : Type := list (string * DataFrame).

Definition to_csv (fs : Exports) (path : string) (f : DataFrame) : Exports :=
  (path, f) :: filter (fun e => negb (fst e =? path)) fs.

(** The export loop.  The files written before an exception stay on disk,
    so the directory is returned next to the outcome. *)
Fixpoint export_loop (db : Database) (ts : list string) (fs : Exports)
    : Exports * result unit :=
  match ts with
  | [] => (fs, Ok tt)
  | table :: ts' =>
      match read_sql_query db table with
      | Raise msg => (fs, Raise msg)
      | Ok df => export_loop db ts' (to_csv fs (table ++ ".csv") df)
      end
  end.

Definition export_tables (db : Database) (fs : Exports) : Exports * result unit :=
  export_loop db tables fs.

(** ** Row-wise readings

    The frames above are built column by column, as in the source.  The
    functions below give the same rows one at a time; the properties use
    them once they are shown to agree with the column-wise definitions. *)

(** The number a cell contributes to a sum, a missing cell counting as 0. *)
Definition as_num (v : value) : Q :=
  match v with VNum q => q | _ => 0 end.

(** The row of [fact_wide] at position [i] (from 0), from the working row. *)
Definition fact_row (i : nat) (r : Row) : Row :=
  let r := upd r "order_date_key" (order_date_key_cell (r "order_date")) in
  let r : Row := fun k => if k =? "sales_amount" then r "sales"
                          else if k =? "sales" then VNull else r k in
  let r := upd r "sales_id" (VInt (Z.of_nat i + 1)) in
  let r := upd r "gross_sales"
               (vadd (fillna0 (r "sales_amount")) (fillna0 (r "discount"))) in
  upd r "discount_pct"
      (if gt0 (r "gross_sales")
       then cell_of_quotient (float_div (fillna0 (r "discount")) (r "gross_sales"))
       else VNum 0).

(** Columns of the fact frame that are copied unchanged from the working
    frame, under the same name. *)
Definition carried_cols : list string :=
  ["order_id"; "order_date"; "ship_date"; "ship_mode"; "customer_id";
   "product_id"; "country"; "city"; "state"; "region"; "quantity";
   "discount"; "profit"].

(** A raw row given by its non-null cells. *)
Definition row_of (cells : list (string * value)) : Row :=
  fun k => match dict_get cells k with Some v => v | None => VNull end.

(** Parsers that recognise nothing, for inputs that are already typed. *)
Definition no_datetime : value -> option Z := fun _ => None.
Definition no_numeric : value -> option Q := fun _ => None.

(** A civil date that exists in the calendar. *)
Definition valid_date (c : civil) : Prop :=
  (1 <= month c <= 12 /\ 1 <= day c <= days_in_month (year c) (month c))%Z.

(** ** Sample inputs *)

(** Midnight of the day [d] days after 1970-01-01. *)
Definition midnight (d : Z) : Z := (d * NS_PER_DAY)%Z.

(** 2024-01-05 is day 19727. *)
Definition jan_5_2024 : Z := midnight 19727.

Definition sample_header : list string :=
  ["order_id"; "order_date"; "customer_id"; "customer_name"; "city";
   "product_id"; "quantity"; "sales"; "discount"; "profit"].

(** The single row of the scenario of the specification. *)
Definition scenario_row : Row :=
  row_of [("order_id", VInt 1); ("order_date", VDate jan_5_2024);
          ("customer_id", VStr "C1"); ("product_id", VStr "P1");
          ("quantity", VInt 2); ("sales", VInt 100); ("discount", VInt 10);
          ("profit", VInt 20)].

Definition scenario_df : DataFrame := mkFrame sample_header [scenario_row].

(** A sheet whose only row has quantity 0. *)
Definition zero_quantity_df : DataFrame :=
  mkFrame sample_header [upd scenario_row "quantity" (VInt 0)].

(** The scenario sheet without its [order_id] column. *)
Definition no_order_id_df : DataFrame :=
  mkFrame (tl sample_header) [upd scenario_row "order_id" VNull].

(** One customer ordering from two cities. *)
Definition two_cities_df : DataFrame :=
  mkFrame sample_header
          [upd scenario_row "city" (VStr "Austin");
           upd (upd scenario_row "order_id" (VInt 2)) "city" (VStr "Boston")].

(** The export directory after the tables [ts], all present, were written. *)
Definition written (db : Database) (ts : list string) (fs : Exports) : Exports :=
  fold_left (fun fs t => match dict_get db t with
                         | Some f => to_csv fs (t ++ ".csv") f
                         | None => fs
                         end) ts fs.

(** A database in which only the customer dimension was written. *)
Definition customer_only_db : Database :=
  [("sa_dim_customer",
    dim_customer (sanitize no_datetime no_numeric scenario_df))].

(** ** Notions used to state the monthly properties *)

(** (year, month) pairs in ascending order. *)
Definition lex_le (a b : Z * Z) : Prop :=
  (fst a < fst b \/ (fst a = fst b /\ snd a <= snd b))%Z.

(** The integer a numeric cell holds. *)
Definition int_of (v : value) : Z := Qfloor (as_num v).

Definition ym_of (r : Row) : Z * Z := (int_of (r "year"), int_of (r "month")).

(** The running sum of a sequence at position [i]: the sum of the terms at
    positions 0 to [i]. *)
Definition running_sum (xs : list Q) (i : nat) : Q :=
  fold_right Qplus 0 (firstn (S i) xs).

(** Partial sums of a list of numbers, from an initial value. *)
Fixpoint partial_sums (acc : Q) (xs : list Q) : list Q :=
  match xs with
  | [] => []
  | x :: xs' => (acc + x) :: partial_sums (acc + x) xs'
  end.

(** Two orders of one customer, in January and in February 2024, the
    second with a negative sales amount (a return). *)
Definition return_df : DataFrame :=
  mkFrame sample_header
          [scenario_row;
           upd (upd (upd scenario_row "order_id" (VInt 2))
                    "order_date" (VDate (midnight 19760)))
               "sales" (VNum (-50))].

(** A row of the monthly table: integer year and month, numeric revenue. *)
Definition month_row (r : Row) : Prop :=
  exists (y m : Z) (q : Q),
    r "year" = VInt y /\ r "month" = VInt m /\ r "monthly_revenue" = VNum q.

(** Cells of a datetime column and of a numeric column. *)
Definition date_or_null (v : value) : bool :=
  match v with VNull | VDate _ => true | _ => false end.

Definition num_or_null (v : value) : bool :=
  match v with VNull | VNum _ => true | _ => false end.

(** ** Range of exact arithmetic *)

(** A number an int64 holds. *)
Definition int64_range (q : Q) : Prop :=
  inject_Z (- 2 ^ 63) <= q /\ q < inject_Z (2 ^ 63).

(** The sum of the magnitudes of the numbers of a column: a bound on the
    magnitude of any sum taken over some of its cells. *)
Definition abs_total (vs : list value) : Q :=
  fold_right (fun v acc => Qabs (as_num v) + acc) 0 vs.

(** The scenario sheet with sales 0 and discount 0. *)
Definition zero_gross_df : DataFrame :=
  mkFrame sample_header
          [upd (upd scenario_row "sales" (VInt 0)) "discount" (VInt 0)].

(** * Properties *)

(** ** Frames *)

Lemma upd_same (r : Row) (c : string) (v : value) : upd r c v c = v.
Proof. unfold upd. now rewrite String.eqb_refl. Qed.

Lemma upd_other (r : Row) (c k : string) (v : value) :
  k <> c -> upd r c v k = r k.
Proof. unfold upd. intros H. apply String.eqb_neq in H. now rewrite H. Qed.

Lemma mem_In (c : string) (cols : list string) : mem c cols = true <-> In c cols.
Proof.
  unfold mem. rewrite existsb_exists. split.
  - intros [x [Hin Heq]]. apply String.eqb_eq in Heq. now subst.
  - intros Hin. exists c. split; [assumption | apply String.eqb_refl].
Qed.

Lemma zip_upd_map (g : Row -> value) (c : string) (rs : list Row) :
  zip_upd rs c (map g rs) = map (fun r => upd r c (g r)) rs.
Proof. induction rs as [| r rs IH]; simpl; [reflexivity | now rewrite IH]. Qed.

(** Assigning a column computed row by row never changes the row count. *)
Lemma set_series_map (f : DataFrame) (c : string) (g : Row -> value) :
  rows (set_series f c (map g (rows f))) = map (fun r => upd r c (g r)) (rows f).
Proof.
  unfold set_series; simpl. destruct (rows f) as [| r rs] eqn:E.
  - reflexivity.
  - rewrite <- E. rewrite zip_upd_map. reflexivity.
Qed.

Lemma columns_copy_col (df w : DataFrame) (l : string) :
  columns (copy_col df w l None) = add_col l (columns w).
Proof. unfold copy_col. destruct (resolved (columns df) l); reflexivity. Qed.

Lemma columns_fold_copy (df : DataFrame) (ls : list string) (w : DataFrame) :
  columns (fold_left (fun w l => copy_col df w l None) ls w)
  = fold_left (fun cs l => add_col l cs) ls (columns w).
Proof.
  revert w. induction ls as [| l ls IH]; intros w; simpl; [reflexivity |].
  rewrite IH, columns_copy_col. reflexivity.
Qed.

(** Whatever the header of the raw frame, the working frame has the twenty
    logical columns. *)
Lemma columns_build_work (df : DataFrame) : columns (build_work df) = copied_fields.
Proof. unfold build_work. rewrite columns_fold_copy. reflexivity. Qed.

Lemma fold_map_col_guard (g : value -> value) (cs : list string) (w : DataFrame) :
  (forall c, In c cs -> has_col w c = true) ->
  fold_left (fun w c => if has_col w c then map_col w c g else w) cs w
  = fold_left (fun w c => map_col w c g) cs w.
Proof.
  revert w. induction cs as [| c cs IH]; intros w H; simpl; [reflexivity |].
  rewrite (H c) by now left. apply IH.
  intros c' Hc'. unfold has_col, map_col; simpl. apply H. now right.
Qed.

Section SanitizerProperties.

Variable pd : value -> option Z.
Variable pn : value -> option Q.

Lemma coerced_unguarded (df : DataFrame) :
  coerced pd pn df
  = fold_left (fun w c => map_col w c (to_numeric_cell pn)) numeric_cols
      (map_col (map_col (build_work df) "order_date" (to_datetime_cell pd))
               "ship_date" (to_datetime_cell pd)).
Proof.
  unfold coerced. apply fold_map_col_guard.
  intros c Hc. unfold has_col. cbn [columns map_col].
  rewrite columns_build_work. apply mem_In.
  unfold numeric_cols in Hc. unfold copied_fields. simpl in Hc |- *. tauto.
Qed.

Lemma columns_coerced (df : DataFrame) : columns (coerced pd pn df) = copied_fields.
Proof. rewrite coerced_unguarded. cbn. apply columns_build_work. Qed.

Lemma rows_coerced (df : DataFrame) :
  rows (coerced pd pn df) = map (coerce_row pd pn) (rows (build_work df)).
Proof.
  rewrite coerced_unguarded. cbn [fold_left numeric_cols map_col rows columns].
  rewrite !map_map. reflexivity.
Qed.

Lemma rows_sanitize (df : DataFrame) :
  rows (sanitize pd pn df)
  = filter quantity_positive (filter keys_present (rows (coerced pd pn df))).
Proof.
  unfold sanitize, has_col, dropna. cbn [columns filter_rows].
  rewrite columns_coerced. reflexivity.
Qed.

Lemma columns_sanitize (df : DataFrame) : columns (sanitize pd pn df) = copied_fields.
Proof.
  unfold sanitize, has_col, dropna. cbn [columns filter_rows].
  rewrite columns_coerced. change (mem "quantity" copied_fields) with true.
  cbn [columns filter_rows]. apply columns_coerced.
Qed.

Lemma to_datetime_cell_cases (v : value) :
  to_datetime_cell pd v = VNull \/ exists t, to_datetime_cell pd v = VDate t.
Proof.
  destruct v; simpl; try destruct (pd _); eauto.
Qed.

Lemma coerced_order_date (df : DataFrame) (r : Row) :
  In r (rows (coerced pd pn df)) ->
  r "order_date" = VNull \/ exists t, r "order_date" = VDate t.
Proof.
  rewrite rows_coerced. intros H. apply in_map_iff in H.
  destruct H as [r0 [<- _]]. unfold coerce_row, upd. cbn.
  apply to_datetime_cell_cases.
Qed.

Lemma quantity_positive_spec (r : Row) :
  quantity_positive r = true <-> exists q, r "quantity" = VNum q /\ 0 < q.
Proof.
  unfold quantity_positive. split.
  - destruct (r "quantity") as [| s | q | t]; simpl; try discriminate.
    intros H. exists q. split; [reflexivity |].
    apply negb_true_iff in H. apply Qnot_le_lt. intros Hle.
    apply Qle_bool_iff in Hle. congruence.
  - intros [q [-> Hq]]. simpl. apply negb_true_iff.
    destruct (Qle_bool q 0) eqn:E; [| reflexivity].
    apply Qle_bool_iff in E. lra.
Qed.

Lemma keys_present_spec (r : Row) :
  keys_present r = true <->
  r "order_id" <> VNull /\ r "customer_id" <> VNull /\
  r "product_id" <> VNull /\ r "order_date" <> VNull.
Proof.
  unfold keys_present, critical_keys. cbn [forallb].
  rewrite !andb_true_iff, !negb_true_iff.
  assert (E : forall v, isnull v = false <-> v <> VNull)
    by (intros v; destruct v; simpl; split; congruence).
  rewrite !E. tauto.
Qed.

(** The invariant of the working frame. *)
Lemma sanitize_rows_invariant (df : DataFrame) :
  rows (sanitize pd pn df)
  = filter (fun r => gt0 (fillna0 (r "quantity")))
      (filter (fun r => forallb (fun c => negb (isnull (r c)))
                          ["order_id"; "customer_id"; "product_id"; "order_date"])
              (rows (coerced pd pn df)))
  /\ Forall (fun r =>
              r "order_id" <> VNull /\ r "customer_id" <> VNull /\
              r "product_id" <> VNull /\
              (exists t, r "order_date" = VDate t) /\
              (exists q, r "quantity" = VNum q /\ 0 < q))
            (rows (sanitize pd pn df)).
Proof.
  split; [apply rows_sanitize |].
  rewrite rows_sanitize. apply Forall_forall. intros r Hr.
  apply filter_In in Hr. destruct Hr as [Hr Hq].
  apply filter_In in Hr. destruct Hr as [Hr Hk].
  apply keys_present_spec in Hk. destruct Hk as (H1 & H2 & H3 & H4).
  apply quantity_positive_spec in Hq.
  repeat split; try assumption.
  destruct (coerced_order_date df r Hr) as [E | E]; [contradiction | exact E].
Qed.

(** C1.  The working frame is the coerced frame filtered twice, first on
    the required fields and then on the quantity (a missing quantity
    counting as 0); each of its rows has an order id, a customer id, a
    product id, an order date that is a date, and a quantity that is a
    number greater than 0. *)
Theorem sanitize_invariant (df : DataFrame) :
  rows (sanitize pd pn df)
  = filter (fun r => gt0 (fillna0 (r "quantity")))
      (filter (fun r => forallb (fun c => negb (isnull (r c)))
                          ["order_id"; "customer_id"; "product_id"; "order_date"])
              (rows (coerced pd pn df)))
  /\ Forall (fun r =>
              r "order_id" <> VNull /\ r "customer_id" <> VNull /\
              r "product_id" <> VNull /\
              (exists t, r "order_date" = VDate t) /\
              (exists q, r "quantity" = VNum q /\ 0 < q))
            (rows (sanitize pd pn df)).
Proof. exact (sanitize_rows_invariant df). Qed.

End SanitizerProperties.

(** ** Fact builder *)

Lemma zip_upd_seq (g : nat -> value) (c : string) (rs : list Row) (k : nat) :
  zip_upd rs c (map g (seq k (List.length rs)))
  = map (fun ir => upd (snd ir) c (g (fst ir))) (combine (seq k (List.length rs)) rs).
Proof.
  revert k. induction rs as [| r rs IH]; intros k; simpl; [reflexivity |].
  now rewrite IH.
Qed.

Lemma set_series_seq (f : DataFrame) (c : string) (g : nat -> value) :
  rows (set_series f c (map g (seq 0 (List.length (rows f)))))
  = map (fun ir => upd (snd ir) c (g (fst ir)))
        (combine (seq 0 (List.length (rows f))) (rows f)).
Proof.
  unfold set_series; simpl. destruct (rows f) as [| r rs] eqn:E.
  - reflexivity.
  - rewrite <- E. apply zip_upd_seq.
Qed.

Lemma np_where_map {A : Type} (c : A -> bool) (x : A -> quotient) (y : value)
    (l : list A) :
  np_where (map c l) (map x l) y
  = map (fun a => if c a then cell_of_quotient (x a) else y) l.
Proof. induction l as [| a l IH]; simpl; [reflexivity | now rewrite IH]. Qed.

Lemma combine_map_r {A B C : Type} (g : B -> C) (l : list A) (l' : list B) :
  combine l (map g l') = map (fun p => (fst p, g (snd p))) (combine l l').
Proof.
  revert l'. induction l as [| a l IH]; intros [| b l']; simpl; try reflexivity.
  now rewrite IH.
Qed.

(** The column-wise construction of the fact frame agrees with the
    row-wise reading [fact_row]. *)
Lemma rows_fact_wide (work : DataFrame) :
  rows (fact_wide work)
  = map (fun ir => fact_row (fst ir) (snd ir))
        (combine (seq 0 (List.length (rows work))) (rows work)).
Proof.
  unfold fact_wide. cbv zeta.
  set (f1 := set_series work "order_date_key" _).
  set (f2 := rename_col f1 "sales" "sales_amount").
  set (f3 := set_series f2 "sales_id" _).
  set (f4 := set_series f3 "gross_sales" _).
  assert (E1 : rows f1 = map (fun r => upd r "order_date_key"
                                (order_date_key_cell (r "order_date"))) (rows work)).
  { unfold f1, column. rewrite map_map. apply set_series_map. }
  assert (E3 : rows f3 = map (fun ir => upd (snd ir) "sales_id" (VInt (Z.of_nat (fst ir) + 1)))
                             (combine (seq 0 (List.length (rows f2))) (rows f2))).
  { unfold f3. apply (set_series_seq f2 "sales_id" (fun i => VInt (Z.of_nat i + 1))). }
  assert (E4 : rows f4 = map (fun r => upd r "gross_sales"
                 (vadd (fillna0 (r "sales_amount")) (fillna0 (r "discount")))) (rows f3)).
  { unfold f4. apply set_series_map. }
  unfold column. rewrite map_map, np_where_map, set_series_map.
  rewrite E4, E3. unfold f2, rename_col. cbn [rows]. rewrite E1.
  rewrite !length_map, !map_map, combine_map_r, !map_map.
  apply map_ext. intros [i r]. reflexivity.
Qed.

Lemma columns_set_series (f : DataFrame) (c : string) (vs : list value) :
  columns (set_series f c vs) = add_col c (columns f).
Proof. reflexivity. Qed.

(** The column selection of the fact builder never drops a column. *)
Lemma keep_existing_all (work : DataFrame) :
  columns work = copied_fields -> keep_existing (fact_wide work) = keep_cols.
Proof.
  intros H. unfold keep_existing, has_col, fact_wide. cbv zeta.
  rewrite !columns_set_series. unfold rename_col. cbn [columns].
  rewrite columns_set_series, H. reflexivity.
Qed.

Lemma map_fst_combine_seq {A : Type} (l : list A) (k : nat) :
  map fst (combine (seq k (List.length l)) l) = seq k (List.length l).
Proof.
  revert k. induction l as [| a l IH]; intros k; simpl; [reflexivity |].
  now rewrite IH.
Qed.

Lemma map_snd_combine_seq {A : Type} (l : list A) (k : nat) :
  map snd (combine (seq k (List.length l)) l) = l.
Proof.
  revert k. induction l as [| a l IH]; intros k; simpl; [reflexivity |].
  now rewrite IH.
Qed.

Lemma column_project (f : DataFrame) (cols : list string) (k : string) :
  In k cols -> column (project f cols) k = column f k.
Proof.
  intros H. unfold column, project. cbn [rows]. rewrite map_map.
  apply map_ext. intros r. apply mem_In in H. now rewrite H.
Qed.

Lemma fact_row_carried (i : nat) (r : Row) (k : string) :
  In k carried_cols -> fact_row i r k = r k.
Proof.
  unfold carried_cols. simpl.
  intros H; repeat (destruct H as [<- | H]; [reflexivity |]); contradiction.
Qed.

Lemma NoDup_map_injective {A B : Type} (f : A -> B) (l : list A) :
  (forall x y, f x = f y -> x = y) -> NoDup l -> NoDup (map f l).
Proof.
  intros Hf H. induction H as [| a l Hin Hnd IH]; simpl; constructor.
  - intros Hin'. apply in_map_iff in Hin'. destruct Hin' as [x [E Hx]].
    apply Hf in E. now subst.
  - exact IH.
Qed.

Section FactProperties.

Variable pd : value -> option Z.
Variable pn : value -> option Q.

Lemma sanitize_dates (df : DataFrame) :
  forallb is_date (column (sanitize pd pn df) "order_date") = true.
Proof.
  unfold column. apply forallb_forall. intros v Hv.
  apply in_map_iff in Hv. destruct Hv as [r [<- Hr]].
  destruct (sanitize_rows_invariant pd pn df) as [_ H].
  rewrite Forall_forall in H. destruct (H r Hr) as (_ & _ & _ & [t ->] & _).
  reflexivity.
Qed.

(** On the working frame the fact builder does not raise, and keeps the
    full column set. *)
Lemma build_fact_sanitize (df : DataFrame) :
  build_fact (sanitize pd pn df)
  = Ok (project (fact_wide (sanitize pd pn df)) keep_cols).
Proof.
  unfold build_fact. rewrite sanitize_dates.
  rewrite keep_existing_all by apply columns_sanitize. reflexivity.
Qed.

Lemma fact_column (work : DataFrame) (k : string) :
  In k keep_cols ->
  column (project (fact_wide work) keep_cols) k
  = map (fun ir => fact_row (fst ir) (snd ir) k)
        (combine (seq 0 (List.length (rows work))) (rows work)).
Proof.
  intros H. rewrite column_project by assumption.
  unfold column. rewrite rows_fact_wide, map_map. reflexivity.
Qed.

Lemma fact_column_carried (work : DataFrame) (k : string) :
  In k carried_cols ->
  column (project (fact_wide work) keep_cols) k = column work k.
Proof.
  intros H. rewrite fact_column.
  - unfold column.
    transitivity (map (fun r : Row => r k)
                      (map snd (combine (seq 0 (List.length (rows work))) (rows work)))).
    + rewrite map_map. apply map_ext. intros [i r]. now apply fact_row_carried.
    + now rewrite map_snd_combine_seq.
  - revert H. unfold carried_cols, keep_cols. simpl. tauto.
Qed.

(** C3.  The fact builder returns a frame with as many rows as the working
    frame; its [sales_id] column reads 1, 2, ..., N from top to bottom, with
    no repetition, and the rows keep the order of the working rows: every
    column carried over from the working frame is the same column, cell for
    cell. *)
Theorem sales_id_sequential (df : DataFrame) :
  exists fact,
    build_fact (sanitize pd pn df) = Ok fact /\
    let work := sanitize pd pn df in
    let N := List.length (rows work) in
    List.length (rows fact) = N /\
    column fact "sales_id" = map (fun i => VInt (Z.of_nat i)) (seq 1 N) /\
    NoDup (column fact "sales_id") /\
    (forall c, In c carried_cols -> column fact c = column work c) /\
    column fact "sales_amount" = column work "sales".
Proof.
  eexists. split; [apply build_fact_sanitize |]. cbv zeta.
  set (work := sanitize pd pn df).
  assert (Hid : column (project (fact_wide work) keep_cols) "sales_id"
                = map (fun i => VInt (Z.of_nat i)) (seq 1 (List.length (rows work)))).
  { rewrite fact_column by (unfold keep_cols; simpl; tauto).
    rewrite <- seq_shift, map_map.
    transitivity (map (fun i => VInt (Z.of_nat (S i)))
                      (map fst (combine (seq 0 (List.length (rows work))) (rows work)))).
    - rewrite map_map. apply map_ext. intros [i r]. cbn. unfold VInt.
      f_equal. f_equal. lia.
    - now rewrite map_fst_combine_seq. }
  split; [| split; [exact Hid | split; [| split]]].
  - unfold project. cbn [rows]. rewrite length_map, rows_fact_wide, length_map.
    rewrite length_combine, length_seq. apply Nat.min_id.
  - rewrite Hid. apply NoDup_map_injective; [| apply seq_NoDup].
    intros i j H. unfold VInt, inject_Z in H. injection H. lia.
  - intros c Hc. now apply fact_column_carried.
  - rewrite fact_column by (unfold keep_cols; simpl; tauto).
    unfold column.
    transitivity (map (fun r : Row => r "sales")
                      (map snd (combine (seq 0 (List.length (rows work))) (rows work)))).
    + rewrite map_map. apply map_ext. intros [i r]. reflexivity.
    + now rewrite map_snd_combine_seq.
Qed.

Lemma to_numeric_cell_cases (v : value) :
  to_numeric_cell pn v = VNull \/ exists q, to_numeric_cell pn v = VNum q.
Proof. destruct v; simpl; try destruct (pn _); eauto. Qed.

Lemma sanitize_numeric (df : DataFrame) (r : Row) (c : string) :
  In r (rows (sanitize pd pn df)) -> In c numeric_cols ->
  r c = VNull \/ exists q, r c = VNum q.
Proof.
  rewrite rows_sanitize. intros Hr Hc.
  apply filter_In in Hr. destruct Hr as [Hr _].
  apply filter_In in Hr. destruct Hr as [Hr _].
  rewrite rows_coerced in Hr. apply in_map_iff in Hr.
  destruct Hr as [r0 [<- _]].
  unfold numeric_cols in Hc. simpl in Hc.
  repeat (destruct Hc as [<- | Hc];
          [unfold coerce_row, upd; cbn; apply to_numeric_cell_cases |]).
  contradiction.
Qed.

Lemma gt0_pos (q : Q) : 0 < q -> gt0 (VNum q) = true.
Proof.
  intros H. simpl. apply negb_true_iff.
  destruct (Qle_bool q 0) eqn:E; [| reflexivity].
  apply Qle_bool_iff in E. lra.
Qed.

Lemma gt0_nonpos (q : Q) : q <= 0 -> gt0 (VNum q) = false.
Proof.
  intros H. simpl. apply negb_false_iff. now apply Qle_bool_iff.
Qed.

Lemma float_div_pos (a b : Q) :
  0 < b -> float_div (VNum a) (VNum b) = Finite (a / b).
Proof.
  intros H. simpl. destruct (Qeq_bool b 0) eqn:E; [| reflexivity].
  apply Qeq_bool_iff in E. lra.
Qed.

(** The derived money fields of one fact row, from the working row. *)
Lemma fact_row_money (i : nat) (r : Row) :
  (r "sales" = VNull \/ exists q, r "sales" = VNum q) ->
  (r "discount" = VNull \/ exists q, r "discount" = VNum q) ->
  let s := as_num (r "sales") in
  let d := as_num (r "discount") in
  fact_row i r "gross_sales" = VNum (s + d) /\
  (0 < s + d ->
   float_div (fillna0 (r "discount")) (fact_row i r "gross_sales") = Finite (d / (s + d))
   /\ fact_row i r "discount_pct" = VNum (d / (s + d))) /\
  (s + d <= 0 -> fact_row i r "discount_pct" = VNum 0).
Proof.
  intros Hs Hd. cbv zeta.
  assert (G : fact_row i r "gross_sales"
              = VNum (as_num (r "sales") + as_num (r "discount"))).
  { unfold fact_row, upd. cbn.
    destruct Hs as [-> | [x ->]], Hd as [-> | [y ->]]; reflexivity. }
  assert (F : fillna0 (r "discount") = VNum (as_num (r "discount"))).
  { destruct Hd as [-> | [y ->]]; reflexivity. }
  assert (P : fact_row i r "discount_pct"
              = if gt0 (fact_row i r "gross_sales")
                then cell_of_quotient
                       (float_div (fillna0 (r "discount")) (fact_row i r "gross_sales"))
                else VNum 0) by reflexivity.
  split; [exact G |]. split.
  - intros H. rewrite P, G, F, gt0_pos, float_div_pos by assumption. now split.
  - intros H. rewrite P, G, gt0_nonpos by assumption. reflexivity.
Qed.

Lemma fact_rows_inv (work : DataFrame) (r : Row) :
  In r (rows (project (fact_wide work) keep_cols)) ->
  exists i r0, In r0 (rows work) /\
               forall k, In k keep_cols -> r k = fact_row i r0 k.
Proof.
  unfold project. cbn [rows]. rewrite rows_fact_wide, map_map.
  intros H. apply in_map_iff in H. destruct H as [[i r0] [<- Hin]].
  exists i, r0. split; [now apply in_combine_r in Hin |].
  intros k Hk. apply mem_In in Hk. cbn [fst snd]. now rewrite Hk.
Qed.

Lemma float_div_zero (a b : Q) :
  b == 0 -> float_div (VNum a) (VNum b) = NotFinite.
Proof.
  intros H. simpl. apply Qeq_bool_iff in H. now rewrite H.
Qed.

(** C2, as the code has it.  The fact builder returns a frame whose
    [discount] column is the one of the working frame (a missing discount
    stays missing).  Its [discount_pct] is 0 on every row whose
    [gross_sales] is not greater than 0.  Writing s and d for the sales
    amount and the discount of a row with a missing cell counted as 0, and
    provided s + d lies within the int64 range: [gross_sales] is s + d;
    when s + d > 0 the quotient of line 214 is finite and [discount_pct]
    is d / (s + d); when s + d = 0 the quotient of that row is still
    computed, on a zero divisor, and is not finite. *)
Theorem discount_pct_selected (df : DataFrame) :
  exists fact,
    build_fact (sanitize pd pn df) = Ok fact /\
    column fact "discount" = column (sanitize pd pn df) "discount" /\
    Forall (fun r : Row =>
              let s := as_num (r "sales_amount") in
              let d := as_num (r "discount") in
              let quot := float_div (fillna0 (r "discount")) (r "gross_sales") in
              (gt0 (r "gross_sales") = false -> r "discount_pct" = VNum 0) /\
              (int64_range (s + d) ->
               r "gross_sales" = VNum (s + d) /\
               (0 < s + d ->
                quot = Finite (d / (s + d)) /\ r "discount_pct" = VNum (d / (s + d))) /\
               (s + d == 0 -> quot = NotFinite)))
           (rows fact).
Proof.
  eexists. split; [apply build_fact_sanitize |]. split.
  - apply fact_column_carried. unfold carried_cols. simpl. tauto.
  - apply Forall_forall. intros r Hr.
    apply fact_rows_inv in Hr. destruct Hr as (i & r0 & Hr0 & Hk).
    assert (Hs := sanitize_numeric df r0 "sales" Hr0 (or_introl eq_refl)).
    assert (Hd : r0 "discount" = VNull \/ exists q, r0 "discount" = VNum q).
    { apply (sanitize_numeric df r0 "discount" Hr0). unfold numeric_cols. simpl. tauto. }
    destruct (fact_row_money i r0 Hs Hd) as (G & Hpos & Hneg).
    rewrite !Hk by (unfold keep_cols; simpl; tauto).
    change (fact_row i r0 "sales_amount") with (r0 "sales").
    change (fact_row i r0 "discount") with (r0 "discount").
    cbv zeta. split.
    + rewrite G. intros Hg. apply Hneg.
      simpl in Hg. apply negb_false_iff in Hg. apply Qle_bool_iff. exact Hg.
    + intros _. split; [exact G |]. split; [exact Hpos |].
      intros Hz. rewrite G. clear - Hd Hz.
      destruct Hd as [E | [y E]]; rewrite E in *; apply float_div_zero; exact Hz.
Qed.

End FactProperties.

(** C2 as stated fails: on a row with sales 0 and discount 0 the quotient
    of line 214 is computed with divisor 0; it is not finite, and the
    selection then stores 0. *)
Lemma quotient_divides_by_zero :
  exists fact,
    build_fact (sanitize no_datetime no_numeric zero_gross_df) = Ok fact /\
    column fact "gross_sales" = [VNum 0] /\
    map (fun r : Row => float_div (fillna0 (r "discount")) (r "gross_sales"))
        (rows fact) = [NotFinite] /\
    column fact "discount_pct" = [VNum 0].
Proof.
  eexists. split; [apply build_fact_sanitize |].
  repeat split; vm_compute; reflexivity.
Qed.

(** ** Columns without a source *)

Lemma zip_upd_keeps (c l : string) (rs : list Row) (vs : list value) :
  l <> c ->
  Forall (fun r : Row => r c = VNull) rs ->
  Forall (fun r : Row => r c = VNull) (zip_upd rs l vs).
Proof.
  intros Hl H. revert vs. induction H as [| r rs Hr _ IH]; intros vs; simpl.
  - constructor.
  - destruct vs as [| v vs]; constructor; try apply IH;
      rewrite upd_other by congruence; exact Hr.
Qed.

(** A copy into another column leaves a column that reads null null. *)
Lemma copy_col_keeps (df w : DataFrame) (c l : string) :
  l <> c ->
  Forall (fun r : Row => r c = VNull) (rows w) ->
  Forall (fun r : Row => r c = VNull) (rows (copy_col df w l None)).
Proof.
  intros Hl H. unfold copy_col.
  destruct (resolved (columns df) l) as [a |].
  - unfold set_series. cbn [rows]. destruct (rows w) as [| r rs] eqn:E.
    + apply Forall_forall. intros r Hr. apply in_map_iff in Hr.
      destruct Hr as [v [<- _]]. rewrite upd_other by congruence. reflexivity.
    + now apply zip_upd_keeps.
  - unfold set_scalar. cbn [rows]. apply Forall_forall. intros r Hr.
    apply in_map_iff in Hr. destruct Hr as [r0 [<- Hr0]].
    rewrite upd_other by congruence. rewrite Forall_forall in H. now apply H.
Qed.

(** The copy of a logical field that has no source column fills it. *)
Lemma copy_col_absent (df w : DataFrame) (c : string) :
  resolved (columns df) c = None ->
  Forall (fun r : Row => r c = VNull) (rows (copy_col df w c None)).
Proof.
  intros H. unfold copy_col. rewrite H. unfold set_scalar. cbn [rows].
  apply Forall_forall. intros r Hr. apply in_map_iff in Hr.
  destruct Hr as [r0 [<- _]]. apply upd_same.
Qed.

Lemma fold_copy_absent (df : DataFrame) (c : string) (ls : list string) (w : DataFrame) :
  resolved (columns df) c = None ->
  Forall (fun r : Row => r c = VNull) (rows w) ->
  Forall (fun r : Row => r c = VNull)
         (rows (fold_left (fun w l => copy_col df w l None) ls w)).
Proof.
  intros Hc. revert w. induction ls as [| l ls IH]; intros w H; simpl.
  - exact H.
  - apply IH. destruct (String.eqb_spec l c) as [-> | Hn].
    + now apply copy_col_absent.
    + now apply copy_col_keeps.
Qed.

(** A logical field with no source column is null in every row of the
    copied frame. *)
Lemma build_work_absent (df : DataFrame) (c : string) :
  resolved (columns df) c = None ->
  Forall (fun r : Row => r c = VNull) (rows (build_work df)).
Proof.
  intros H. unfold build_work. apply fold_copy_absent; [assumption | constructor].
Qed.

Section AbsentColumns.

Variable pd : value -> option Z.
Variable pn : value -> option Q.

Lemma coerce_row_null (r : Row) (c : string) :
  r c = VNull -> coerce_row pd pn r c = VNull.
Proof.
  intros H. unfold coerce_row, upd.
  repeat match goal with
         | |- context [String.eqb c ?s] =>
             destruct (String.eqb_spec c s) as [-> | _]; [rewrite H; reflexivity |]
         end.
  exact H.
Qed.

Lemma coerced_absent (df : DataFrame) (c : string) :
  resolved (columns df) c = None ->
  Forall (fun r : Row => r c = VNull) (rows (coerced pd pn df)).
Proof.
  intros H. rewrite rows_coerced. apply Forall_forall. intros r Hr.
  apply in_map_iff in Hr. destruct Hr as [r0 [<- Hr0]].
  apply coerce_row_null.
  pose proof (build_work_absent df c H) as Hb. rewrite Forall_forall in Hb.
  now apply Hb.
Qed.

Lemma sanitize_absent (df : DataFrame) (c : string) :
  resolved (columns df) c = None ->
  Forall (fun r : Row => r c = VNull) (rows (sanitize pd pn df)).
Proof.
  intros H. rewrite rows_sanitize. apply Forall_forall. intros r Hr.
  apply filter_In in Hr. destruct Hr as [Hr _].
  apply filter_In in Hr. destruct Hr as [Hr _].
  pose proof (coerced_absent df c H) as Hb. rewrite Forall_forall in Hb.
  exact (Hb r Hr).
Qed.

(** Without a source column for a required field no row survives. *)
Lemma sanitize_absent_key (df : DataFrame) (c : string) :
  In c critical_keys -> resolved (columns df) c = None ->
  rows (sanitize pd pn df) = [].
Proof.
  intros Hc H.
  destruct (rows (sanitize pd pn df)) as [| r rs] eqn:E; [reflexivity | exfalso].
  assert (Hin : In r (rows (sanitize pd pn df))) by (rewrite E; now left).
  pose proof (sanitize_absent df c H) as Hn. rewrite Forall_forall in Hn.
  specialize (Hn r Hin).
  destruct (sanitize_rows_invariant pd pn df) as [_ Hi]. rewrite Forall_forall in Hi.
  destruct (Hi r Hin) as (H1 & H2 & H3 & [t H4] & _).
  unfold critical_keys in Hc. simpl in Hc.
  destruct Hc as [<- | [<- | [<- | [<- | []]]]]; congruence.
Qed.

End AbsentColumns.

(** ** Calendar *)

Lemma days_in_month_bounds (y m : Z) : (28 <= days_in_month y m <= 31)%Z.
Proof.
  unfold days_in_month.
  destruct (m =? 2)%Z; [destruct (is_leap y); lia |].
  destruct ((m =? 4) || (m =? 6) || (m =? 9) || (m =? 11))%Z; lia.
Qed.

Lemma valid_epoch : valid_date epoch.
Proof. unfold valid_date, epoch, days_in_month; simpl. lia. Qed.

Lemma valid_next_day (c : civil) : valid_date c -> valid_date (next_day c).
Proof.
  destruct c as [y m d]. unfold valid_date, next_day; simpl. intros [Hm Hd].
  destruct (Z.ltb_spec d (days_in_month y m)); simpl.
  - lia.
  - destruct (Z.ltb_spec m 12); simpl.
    + pose proof (days_in_month_bounds y (m + 1)). lia.
    + pose proof (days_in_month_bounds (y + 1) 1). lia.
Qed.

Lemma valid_prev_day (c : civil) : valid_date c -> valid_date (prev_day c).
Proof.
  destruct c as [y m d]. unfold valid_date, prev_day; simpl. intros [Hm Hd].
  destruct (Z.ltb_spec 1 d); simpl.
  - lia.
  - destruct (Z.ltb_spec 1 m); simpl.
    + pose proof (days_in_month_bounds y (m - 1)). lia.
    + change (days_in_month (y - 1) 12) with 31%Z. lia.
Qed.

Lemma next_prev_day (c : civil) : valid_date c -> next_day (prev_day c) = c.
Proof.
  destruct c as [y m d]. unfold valid_date, next_day, prev_day; simpl.
  intros [Hm Hd].
  destruct (Z.ltb_spec 1 d); simpl.
  - destruct (Z.ltb_spec (d - 1) (days_in_month y m)); [| lia].
    f_equal. lia.
  - destruct (Z.ltb_spec 1 m); simpl.
    + rewrite Z.ltb_irrefl.
      destruct (Z.ltb_spec (m - 1) 12); [| lia]. f_equal; lia.
    + change (days_in_month (y - 1) 12) with 31%Z. simpl.
      f_equal; lia.
Qed.

(** The date key grows with the calendar. *)
Lemma date_key_next_day (c : civil) :
  valid_date c -> (date_key c < date_key (next_day c))%Z.
Proof.
  destruct c as [y m d]. unfold valid_date, next_day, date_key; simpl.
  intros [Hm Hd]. pose proof (days_in_month_bounds y m).
  destruct (Z.ltb_spec d (days_in_month y m)); simpl; [lia |].
  destruct (Z.ltb_spec m 12); simpl; lia.
Qed.

Lemma valid_iter_next (n : nat) : valid_date (Nat.iter n next_day epoch).
Proof.
  induction n as [| n IH]; simpl; [apply valid_epoch | now apply valid_next_day].
Qed.

Lemma valid_iter_prev (n : nat) : valid_date (Nat.iter n prev_day epoch).
Proof.
  induction n as [| n IH]; simpl; [apply valid_epoch | now apply valid_prev_day].
Qed.

Lemma valid_civil_of_days (n : Z) : valid_date (civil_of_days n).
Proof.
  unfold civil_of_days. destruct (0 <=? n)%Z;
    [apply valid_iter_next | apply valid_iter_prev].
Qed.

(** One day later on the time axis is the next day of the calendar. *)
Lemma civil_of_days_succ (n : Z) :
  civil_of_days (n + 1) = next_day (civil_of_days n).
Proof.
  unfold civil_of_days.
  destruct (Z.leb_spec 0 n) as [H | H].
  - destruct (Z.leb_spec 0 (n + 1)); [| lia].
    replace (Z.to_nat (n + 1)) with (S (Z.to_nat n)) by lia. reflexivity.
  - destruct (Z.leb_spec 0 (n + 1)) as [H1 | H1].
    + assert (n = -1)%Z by lia. subst n. reflexivity.
    + replace (Z.to_nat (- n)) with (S (Z.to_nat (- (n + 1)))) by lia.
      cbn [Nat.iter]. symmetry. apply next_prev_day, valid_iter_prev.
Qed.

Lemma day_index_add_day (t : Z) : day_index (t + NS_PER_DAY) = (day_index t + 1)%Z.
Proof.
  unfold day_index. replace (t + NS_PER_DAY)%Z with (t + 1 * NS_PER_DAY)%Z by lia.
  apply Z.div_add. unfold NS_PER_DAY. lia.
Qed.

Lemma civil_of_add_day (t : Z) :
  civil_of (t + NS_PER_DAY) = next_day (civil_of t).
Proof. unfold civil_of. rewrite day_index_add_day. apply civil_of_days_succ. Qed.

Lemma date_key_add_day (t : Z) :
  (date_key (civil_of t) < date_key (civil_of (t + NS_PER_DAY)))%Z.
Proof.
  rewrite civil_of_add_day. apply date_key_next_day, valid_civil_of_days.
Qed.

(** ** Date dimension *)

Lemma fold_min_le (ts : list Z) (t : Z) :
  (fold_left Z.min ts t <= t)%Z /\
  Forall (fun x => fold_left Z.min ts t <= x)%Z ts.
Proof.
  revert t. induction ts as [| a ts IH]; intros t; simpl.
  - split; [lia | constructor].
  - destruct (IH (Z.min t a)) as [H1 H2]. split; [lia |].
    constructor; [lia | exact H2].
Qed.

Lemma fold_max_ge (ts : list Z) (t : Z) :
  (t <= fold_left Z.max ts t)%Z /\
  Forall (fun x => x <= fold_left Z.max ts t)%Z ts.
Proof.
  revert t. induction ts as [| a ts IH]; intros t; simpl.
  - split; [lia | constructor].
  - destruct (IH (Z.max t a)) as [H1 H2]. split; [lia |].
    constructor; [lia | exact H2].
Qed.

Lemma dates_of_all_dates (vs : list value) :
  Forall (fun v => exists t, v = VDate t) vs ->
  map VDate (dates_of vs) = vs.
Proof.
  induction 1 as [| v vs [t ->] _ IH]; simpl; [reflexivity | now rewrite IH].
Qed.

Lemma dim_date_no_rows (work : DataFrame) :
  rows work = [] ->
  dim_date work = Raise "Neither `start` nor `end` can be NaT".
Proof.
  intros H. unfold dim_date, column. rewrite H. reflexivity.
Qed.

(** C4, empty case.  On a working frame without rows the minimum and the
    maximum of the order dates are NaT and the date range raises: the date
    dimension is not built. *)
Theorem dim_date_empty_raises (work : DataFrame) :
  rows work = [] ->
  dim_date work = Raise "Neither `start` nor `end` can be NaT".
Proof. exact (dim_date_no_rows work). Qed.

(** The date dimension of a working frame that has rows: one row per day
    from the first order date on, [(max - min).days + 1] of them, each the
    calendar successor of the one before, with growing date keys. *)
Lemma dim_date_contiguous (work : DataFrame) :
  rows work <> [] ->
  Forall (fun r : Row => exists t, r "order_date" = VDate t) (rows work) ->
  exists lo hi : Z,
    date_min (column work "order_date") = VDate lo /\
    date_max (column work "order_date") = VDate hi /\
    Forall (fun r : Row => exists t, r "order_date" = VDate t /\ (lo <= t <= hi)%Z)
           (rows work) /\
    let days := ((hi - lo) / NS_PER_DAY)%Z in
    (0 <= days)%Z /\
    exists dim,
      dim_date work = Ok dim /\
      Z.of_nat (List.length (rows dim)) = (days + 1)%Z /\
      column dim "date"
      = map (fun k => VDate (lo + Z.of_nat k * NS_PER_DAY)) (seq 0 (Z.to_nat (days + 1))) /\
      column dim "date_key"
      = map (fun k => VInt (date_key (civil_of (lo + Z.of_nat k * NS_PER_DAY))))
            (seq 0 (Z.to_nat (days + 1))) /\
      forall k : nat,
        (lo + Z.of_nat (S k) * NS_PER_DAY <= hi)%Z ->
        civil_of (lo + Z.of_nat (S k) * NS_PER_DAY)
        = next_day (civil_of (lo + Z.of_nat k * NS_PER_DAY)) /\
        (date_key (civil_of (lo + Z.of_nat k * NS_PER_DAY))
         < date_key (civil_of (lo + Z.of_nat (S k) * NS_PER_DAY)))%Z.
Proof.
  intros Hne Hall.
  assert (Hcol : Forall (fun v => exists t, v = VDate t) (column work "order_date")).
  { unfold column. apply Forall_forall. intros v Hv. apply in_map_iff in Hv.
    destruct Hv as [r [<- Hr]]. rewrite Forall_forall in Hall. now apply Hall. }
  pose proof (dates_of_all_dates _ Hcol) as Hd.
  unfold dim_date, date_min, date_max.
  destruct (dates_of (column work "order_date")) as [| t ts] eqn:E.
  { exfalso. unfold column in Hd. simpl in Hd.
    destruct (rows work); [now apply Hne | discriminate]. }
  destruct (fold_min_le ts t) as [Hlo1 Hlo2].
  destruct (fold_max_ge ts t) as [Hhi1 Hhi2].
  set (lo := fold_left Z.min ts t) in *. set (hi := fold_left Z.max ts t) in *.
  exists lo, hi. split; [reflexivity |]. split; [reflexivity |].
  assert (Hday : (0 < NS_PER_DAY)%Z) by (unfold NS_PER_DAY; lia).
  split.
  { apply Forall_forall. intros r Hr.
    assert (Hin : In (r "order_date") (map VDate (t :: ts))).
    { rewrite Hd. unfold column.
      exact (in_map (fun r0 : Row => r0 "order_date") _ _ Hr). }
    apply in_map_iff in Hin. destruct Hin as [x [Hx Hin]]. exists x.
    split; [now symmetry |].
    rewrite Forall_forall in Hlo2, Hhi2.
    destruct Hin as [<- | Hin]; [lia |].
    specialize (Hlo2 x Hin). specialize (Hhi2 x Hin). lia. }
  cbv zeta.
  assert (Hdays : (0 <= (hi - lo) / NS_PER_DAY)%Z) by (apply Z.div_pos; lia).
  split; [exact Hdays |].
  eexists. split; [reflexivity |]. cbn [rows column].
  split; [rewrite !length_map, length_seq; lia |].
  split; [unfold column; cbn [rows]; rewrite !map_map; reflexivity |].
  split; [unfold column; cbn [rows]; rewrite !map_map; reflexivity |].
  intros k Hk.
  replace (lo + Z.of_nat (S k) * NS_PER_DAY)%Z
    with (lo + Z.of_nat k * NS_PER_DAY + NS_PER_DAY)%Z by lia.
  split; [apply civil_of_add_day | apply date_key_add_day].
Qed.

(** The working frame of a run meets the conditions of
    [dim_date_contiguous] as soon as it has a row. *)
Lemma dim_date_of_working_frame (pd : value -> option Z) (pn : value -> option Q)
    (df : DataFrame) :
  rows (sanitize pd pn df) <> [] ->
  exists dim lo hi,
    dim_date (sanitize pd pn df) = Ok dim /\
    date_min (column (sanitize pd pn df) "order_date") = VDate lo /\
    date_max (column (sanitize pd pn df) "order_date") = VDate hi /\
    Z.of_nat (List.length (rows dim)) = ((hi - lo) / NS_PER_DAY + 1)%Z.
Proof.
  intros Hne.
  destruct (dim_date_contiguous (sanitize pd pn df) Hne)
    as (lo & hi & Hlo & Hhi & _ & _ & dim & Hdim & Hlen & _).
  - destruct (sanitize_rows_invariant pd pn df) as [_ H].
    apply Forall_forall. intros r Hr. rewrite Forall_forall in H.
    destruct (H r Hr) as (_ & _ & _ & Ht & _). exact Ht.
  - exists dim, lo, hi. repeat split; assumption.
Qed.

Lemma dim_date_empty_raises_witness :
  rows (sanitize no_datetime no_numeric zero_quantity_df) = [] /\
  dim_date (sanitize no_datetime no_numeric zero_quantity_df)
  = Raise "Neither `start` nor `end` can be NaT".
Proof.
  split; [reflexivity | apply dim_date_empty_raises; reflexivity].
Defined.

(** ** The whole run *)

Section RunProperties.

Variable pd : value -> option Z.
Variable pn : value -> option Q.

(** A run whose working frame is empty stops at the date dimension: no
    later table is built and nothing is written. *)
Lemma pipeline_empty_raises (now : Z) (db : Database) (df : DataFrame) :
  rows (sanitize pd pn df) = [] ->
  pipeline pd pn now db df = Raise "Neither `start` nor `end` can be NaT".
Proof.
  intros H. unfold pipeline. cbv zeta.
  rewrite (dim_date_no_rows _ H). reflexivity.
Qed.

Lemma drop_duplicates_project_empty (work : DataFrame) (cols : list string) :
  rows work = [] -> rows (drop_duplicates (project work cols)) = [].
Proof. intros H. unfold drop_duplicates, project. cbn. now rewrite H. Qed.

(** C10.  When the header has no source column for one of the required
    fields, the field is null in every row of the coerced frame, no row
    passes the required-field filter, and the customer and product
    dimensions are empty; the date dimension then raises and the run stops
    there, before the fact table and the metric tables. *)
Theorem absent_key_run (now : Z) (db : Database) (df : DataFrame) (c : string) :
  In c critical_keys ->
  resolved (columns df) c = None ->
  Forall (fun r : Row => r c = VNull) (rows (coerced pd pn df)) /\
  filter keys_present (rows (coerced pd pn df)) = [] /\
  rows (sanitize pd pn df) = [] /\
  rows (dim_customer (sanitize pd pn df)) = [] /\
  rows (dim_product (sanitize pd pn df)) = [] /\
  dim_date (sanitize pd pn df) = Raise "Neither `start` nor `end` can be NaT" /\
  pipeline pd pn now db df = Raise "Neither `start` nor `end` can be NaT".
Proof.
  intros Hc H.
  pose proof (coerced_absent pd pn df c H) as Hnull.
  pose proof (sanitize_absent_key pd pn df c Hc H) as Hrows.
  split; [exact Hnull |]. split.
  { destruct (filter keys_present (rows (coerced pd pn df))) as [| r rs] eqn:E;
      [reflexivity | exfalso].
    assert (Hin : In r (filter keys_present (rows (coerced pd pn df))))
      by (rewrite E; now left).
    apply filter_In in Hin. destruct Hin as [Hin Hk].
    rewrite Forall_forall in Hnull. specialize (Hnull r Hin).
    apply keys_present_spec in Hk. destruct Hk as (H1 & H2 & H3 & H4).
    unfold critical_keys in Hc. simpl in Hc.
    destruct Hc as [<- | [<- | [<- | [<- | []]]]]; congruence. }
  split; [exact Hrows |].
  split; [now apply drop_duplicates_project_empty |].
  split; [now apply drop_duplicates_project_empty |].
  split; [now apply dim_date_no_rows | now apply pipeline_empty_raises].
Qed.

End RunProperties.

Lemma absent_key_run_witness :
  resolved (columns no_order_id_df) "order_id" = None /\
  pipeline no_datetime no_numeric 0 [] no_order_id_df
  = Raise "Neither `start` nor `end` can be NaT".
Proof.
  split; [reflexivity |].
  apply (absent_key_run no_datetime no_numeric 0 [] no_order_id_df "order_id").
  - unfold critical_keys. simpl. tauto.
  - reflexivity.
Defined.

(** ** Customer dimension *)

Lemma value_eqb_refl (v : value) : value_eqb v v = true.
Proof.
  destruct v; simpl;
    [reflexivity | apply String.eqb_refl | apply Qeq_bool_refl | apply Z.eqb_refl].
Qed.

Lemma row_eqb_refl (cols : list string) (r : Row) : row_eqb cols r r = true.
Proof.
  unfold row_eqb. apply forallb_forall. intros c _. apply value_eqb_refl.
Qed.

(** Every kept row is a row of the input that none of [seen] equals. *)
Lemma keep_first_sound (cols : list string) (rs seen : list Row) (r : Row) :
  In r (keep_first cols seen rs) ->
  In r rs /\ Forall (fun s => row_eqb cols r s = false) seen.
Proof.
  revert seen. induction rs as [| a rs IH]; intros seen H; simpl in H.
  - contradiction.
  - destruct (existsb (row_eqb cols a) seen) eqn:E.
    + destruct (IH _ H) as [H1 H2]. split; [now right | exact H2].
    + destruct H as [<- | H].
      * split; [now left |]. apply Forall_forall. intros s Hs.
        destruct (row_eqb cols a s) eqn:E'; [| reflexivity].
        assert (existsb (row_eqb cols a) seen = true)
          by (apply existsb_exists; eauto).
        congruence.
      * destruct (IH _ H) as [H1 H2]. split; [now right |].
        now inversion H2.
Qed.

(** No kept row equals an earlier kept row. *)
Lemma keep_first_distinct (cols : list string) (rs seen : list Row) :
  ForallOrdPairs (fun a b => row_eqb cols b a = false) (keep_first cols seen rs).
Proof.
  revert seen. induction rs as [| a rs IH]; intros seen; simpl.
  - constructor.
  - destruct (existsb (row_eqb cols a) seen); [apply IH |].
    constructor; [| apply IH].
    apply Forall_forall. intros b Hb.
    apply keep_first_sound in Hb. destruct Hb as [_ Hb]. now inversion Hb.
Qed.

(** Every row of the input equals a kept row, or a row seen before. *)
Lemma keep_first_complete (cols : list string) (rs seen : list Row) (r : Row) :
  In r rs ->
  (exists s, In s seen /\ row_eqb cols r s = true) \/
  (exists d, In d (keep_first cols seen rs) /\ row_eqb cols r d = true).
Proof.
  revert seen. induction rs as [| a rs IH]; intros seen H; simpl in *.
  - contradiction.
  - destruct (existsb (row_eqb cols a) seen) eqn:E.
    + destruct H as [<- | H]; [| now apply IH].
      left. apply existsb_exists in E. destruct E as [s [Hs E]]. eauto.
    + destruct H as [<- | H].
      * right. exists a. split; [now left | apply row_eqb_refl].
      * destruct (IH (a :: seen) H) as [[s [[<- | Hs] Es]] | [d [Hd Ed]]].
        -- right. exists a. split; [now left | exact Es].
        -- left. eauto.
        -- right. exists d. split; [now right | exact Ed].
Qed.

(** C5, as the code has it.  The customer dimension has the eight customer
    columns; its rows are rows of the working frame restricted to these
    columns, every working row equals one of them on the eight columns, and
    no two of them are equal on all eight: one row per distinct combination
    of customer id, name, segment and geography, not per customer id. *)
Theorem dim_customer_distinct_rows (work : DataFrame) :
  let dim := dim_customer work in
  columns dim = customer_cols /\
  (forall d, In d (rows dim) ->
     exists r, In r (rows work) /\ forall k, In k customer_cols -> d k = r k) /\
  (forall r, In r (rows work) ->
     exists d, In d (rows dim) /\ row_eqb customer_cols r d = true) /\
  ForallOrdPairs (fun a b => row_eqb customer_cols b a = false) (rows dim).
Proof.
  cbv zeta. unfold dim_customer, drop_duplicates, project. cbn [columns rows].
  split; [reflexivity |]. split; [| split].
  - intros d Hd. apply keep_first_sound in Hd. destruct Hd as [Hd _].
    apply in_map_iff in Hd. destruct Hd as [r [<- Hr]].
    exists r. split; [exact Hr |]. intros k Hk. apply mem_In in Hk. now rewrite Hk.
  - intros r Hr.
    set (p := fun (r : Row) (k : string) => if mem k customer_cols then r k else VNull).
    assert (Hp : In (p r) (map p (rows work))) by now apply in_map.
    destruct (keep_first_complete customer_cols _ [] _ Hp)
      as [[s [[] _]] | [d [Hd Ed]]].
    exists d. split; [exact Hd |].
    unfold row_eqb in *. rewrite forallb_forall in *. intros k Hk.
    specialize (Ed k Hk). unfold p in Ed. apply mem_In in Hk. now rewrite Hk in Ed.
  - apply keep_first_distinct.
Qed.

(** C5 as stated fails: a customer whose orders name two cities has two
    rows in the customer dimension. *)
Lemma dim_customer_two_rows_per_id :
  column (sanitize no_datetime no_numeric two_cities_df) "customer_id"
  = [VStr "C1"; VStr "C1"] /\
  column (dim_customer (sanitize no_datetime no_numeric two_cities_df)) "customer_id"
  = [VStr "C1"; VStr "C1"] /\
  column (dim_customer (sanitize no_datetime no_numeric two_cities_df)) "city"
  = [VStr "Austin"; VStr "Boston"].
Proof. repeat split; reflexivity. Qed.

(** ** Fact columns without a source *)

Section FactColumns.

Variable pd : value -> option Z.
Variable pn : value -> option Q.

(** C8, as the code has it.  Whatever the header of the input, the fact
    builder returns the full set of eighteen fact columns; a fact field
    whose logical field has no source column is kept as a column that is
    null in every row. *)
Theorem fact_columns_fixed (df : DataFrame) :
  exists fact,
    build_fact (sanitize pd pn df) = Ok fact /\
    columns fact = keep_cols /\
    (forall c, In c carried_cols -> resolved (columns df) c = None ->
       has_col fact c = true /\ Forall (fun r : Row => r c = VNull) (rows fact)) /\
    (resolved (columns df) "sales" = None ->
       has_col fact "sales_amount" = true /\
       Forall (fun r : Row => r "sales_amount" = VNull) (rows fact)).
Proof.
  eexists. split; [apply build_fact_sanitize |].
  split; [reflexivity |]. split.
  - intros c Hc Habs. split.
    + unfold has_col, project. cbn [columns]. apply mem_In.
      revert Hc. unfold carried_cols, keep_cols. simpl. tauto.
    + apply Forall_forall. intros r Hr.
      apply fact_rows_inv in Hr. destruct Hr as (i & r0 & Hr0 & Hk).
      rewrite Hk by (revert Hc; unfold carried_cols, keep_cols; simpl; tauto).
      rewrite fact_row_carried by assumption.
      pose proof (sanitize_absent pd pn df c Habs) as Hn.
      rewrite Forall_forall in Hn. exact (Hn r0 Hr0).
  - intros Habs. split; [reflexivity |].
    apply Forall_forall. intros r Hr.
    apply fact_rows_inv in Hr. destruct Hr as (i & r0 & Hr0 & Hk).
    rewrite Hk by (unfold keep_cols; simpl; tauto).
    change (fact_row i r0 "sales_amount") with (r0 "sales").
    pose proof (sanitize_absent pd pn df "sales" Habs) as Hn.
    rewrite Forall_forall in Hn. exact (Hn r0 Hr0).
Qed.

End FactColumns.

(** C8 as stated fails: the scenario sheet has no ship mode column, and the
    fact table has a [ship_mode] column whose only cell is null. *)
Lemma fact_keeps_absent_column :
  resolved (columns scenario_df) "ship_mode" = None /\
  exists fact,
    build_fact (sanitize no_datetime no_numeric scenario_df) = Ok fact /\
    has_col fact "ship_mode" = true /\
    column fact "ship_mode" = [VNull] /\
    column fact "sales_id" = [VInt 1].
Proof.
  split; [reflexivity |].
  eexists. split; [apply build_fact_sanitize |].
  repeat split; reflexivity.
Qed.

(** ** Flat-file export *)

Lemma export_loop_present (db : Database) (pre rest : list string) (fs : Exports) :
  Forall (fun x => dict_get db x <> None) pre ->
  export_loop db (pre ++ rest)%list fs = export_loop db rest (written db pre fs).
Proof.
  intros H. revert fs. induction H as [| x pre Hx _ IH]; intros fs; simpl.
  - reflexivity.
  - unfold read_sql_query, written. simpl.
    destruct (dict_get db x) as [f |]; [apply IH | congruence].
Qed.

(** When the six tables are all there, the six files are written. *)
Lemma export_all_present (db : Database) (fs : Exports) :
  Forall (fun x => dict_get db x <> None) tables ->
  export_tables db fs = (written db tables fs, Ok tt).
Proof.
  intros H. unfold export_tables.
  rewrite <- (app_nil_r tables) at 1. now rewrite export_loop_present.
Qed.

(** C9, as the code has it.  The export reads the tables in the order of
    its list.  At the first table that is missing the query raises and the
    export stops: the files of the tables before it are written, the
    tables after it are not exported, present or not. *)
Theorem export_stops_at_first_missing (db : Database) (fs : Exports)
    (pre post : list string) (t : string) :
  tables = (pre ++ t :: post)%list ->
  Forall (fun x => dict_get db x <> None) pre ->
  dict_get db t = None ->
  export_tables db fs = (written db pre fs, Raise ("no such table: " ++ t)).
Proof.
  intros Ht Hpre Hmiss. unfold export_tables. rewrite Ht.
  rewrite export_loop_present by assumption.
  simpl. unfold read_sql_query. now rewrite Hmiss.
Qed.

Lemma export_stops_at_first_missing_witness :
  export_tables customer_only_db []
  = ([], Raise "no such table: sa_fact_sales").
Proof.
  apply (export_stops_at_first_missing customer_only_db [] []
           ["sa_dim_customer"; "sa_dim_product"; "sa_dim_date";
            "sa_customer_metrics"; "sa_monthly_sales"] "sa_fact_sales").
  - reflexivity.
  - constructor.
  - reflexivity.
Defined.

(** C9 as stated fails: with the customer dimension present and the fact
    table missing, the export raises on the fact table and writes no file,
    not even the one of the customer dimension. *)
Lemma export_does_not_skip :
  dict_get customer_only_db "sa_dim_customer" <> None /\
  dict_get customer_only_db "sa_fact_sales" = None /\
  fst (export_tables customer_only_db []) = [] /\
  snd (export_tables customer_only_db []) = Raise "no such table: sa_fact_sales".
Proof.
  split; [discriminate |]. repeat split; reflexivity.
Qed.

(** ** Sorting and grouping *)

Lemma insert_sorted_In {A : Type} (leb : A -> A -> bool) (x y : A) (l : list A) :
  In y (insert_sorted leb x l) <-> y = x \/ In y l.
Proof.
  induction l as [| a l IH]; simpl.
  - intuition.
  - destruct (leb x a); simpl; [intuition |]. rewrite IH. intuition.
Qed.

Lemma sort_by_In {A : Type} (leb : A -> A -> bool) (y : A) (l : list A) :
  In y (sort_by leb l) <-> In y l.
Proof.
  induction l as [| a l IH]; simpl; [reflexivity |].
  rewrite insert_sorted_In, IH. intuition.
Qed.

Lemma insert_sorted_Sorted {A : Type} (leb : A -> A -> bool) (x : A) (l : list A) :
  (forall a b, leb a b = false -> leb b a = true) ->
  Sorted (fun a b => leb a b = true) l ->
  Sorted (fun a b => leb a b = true) (insert_sorted leb x l).
Proof.
  intros Htot H. induction H as [| a l Hs IH Hhd]; simpl.
  - repeat constructor.
  - destruct (leb x a) eqn:E.
    + constructor; [now constructor | now constructor].
    + constructor; [exact IH |].
      destruct l as [| b l]; simpl.
      * constructor. now apply Htot.
      * destruct (leb x b); constructor; [now apply Htot | now inversion Hhd].
Qed.

Lemma sort_by_Sorted {A : Type} (leb : A -> A -> bool) (l : list A) :
  (forall a b, leb a b = false -> leb b a = true) ->
  Sorted (fun a b => leb a b = true) (sort_by leb l).
Proof.
  intros Htot. induction l as [| a l IH]; simpl;
    [constructor | now apply insert_sorted_Sorted].
Qed.

Lemma keys_leb_total (cols : list string) (a b : Row) :
  keys_leb cols a b = false -> keys_leb cols b a = true.
Proof.
  induction cols as [| c cs IH]; simpl; [discriminate |].
  destruct (value_ltb (a c) (b c)) eqn:E1; [discriminate |].
  destruct (value_ltb (b c) (a c)) eqn:E2; [reflexivity | exact IH].
Qed.

Lemma VInt_ltb (a b : Z) : value_ltb (VInt a) (VInt b) = (a <? b)%Z.
Proof.
  unfold VInt, value_ltb, Qle_bool, inject_Z. simpl. rewrite !Z.mul_1_r.
  symmetry. apply Z.ltb_antisym.
Qed.

Lemma int_of_VInt (z : Z) : int_of (VInt z) = z.
Proof. unfold int_of, VInt, as_num. apply Qfloor_Z. Qed.

Lemma zip_upd_same (c : string) (rs : list Row) (vs : list value) :
  List.length vs = List.length rs ->
  map (fun r : Row => r c) (zip_upd rs c vs) = vs.
Proof.
  revert vs. induction rs as [| r rs IH]; intros [| v vs] H; simpl in *;
    try discriminate; [reflexivity |].
  rewrite upd_same, IH by lia. reflexivity.
Qed.

Lemma zip_upd_other (c k : string) (rs : list Row) (vs : list value) :
  k <> c ->
  map (fun r : Row => r k) (zip_upd rs c vs) = map (fun r : Row => r k) rs.
Proof.
  intros Hk. revert vs. induction rs as [| r rs IH]; intros vs; simpl;
    [reflexivity |].
  destruct vs as [| v vs]; simpl; rewrite upd_other, IH by assumption; reflexivity.
Qed.

Lemma column_set_series_same (f : DataFrame) (c : string) (vs : list value) :
  List.length vs = List.length (rows f) ->
  column (set_series f c vs) c = vs.
Proof.
  intros H. unfold column, set_series. cbn [rows].
  destruct (rows f) as [| r rs] eqn:E.
  - destruct vs; [reflexivity | discriminate].
  - now apply zip_upd_same.
Qed.

Lemma column_set_series_other (f : DataFrame) (c k : string) (vs : list value) :
  k <> c ->
  List.length vs = List.length (rows f) ->
  column (set_series f c vs) k = column f k.
Proof.
  intros Hk H. unfold column, set_series. cbn [rows].
  destruct (rows f) as [| r rs] eqn:E.
  - destruct vs; [reflexivity | discriminate].
  - now apply zip_upd_other.
Qed.

(** ** Running sums *)

Lemma cumsum_from_numbers (acc : Q) (xs : list Q) :
  cumsum_from acc (map VNum xs) = map VNum (partial_sums acc xs).
Proof.
  revert acc. induction xs as [| x xs IH]; intros acc; simpl;
    [reflexivity | now rewrite IH].
Qed.

Lemma length_partial_sums (acc : Q) (xs : list Q) :
  List.length (partial_sums acc xs) = List.length xs.
Proof.
  revert acc. induction xs as [| x xs IH]; intros acc; simpl;
    [reflexivity | now rewrite IH].
Qed.

Lemma partial_sums_running (acc : Q) (xs : list Q) (i : nat) :
  (i < List.length xs)%nat ->
  nth i (partial_sums acc xs) 0 == acc + running_sum xs i.
Proof.
  revert acc i. induction xs as [| x xs IH]; intros acc i H; simpl in H; [lia |].
  destruct i as [| i].
  - unfold running_sum. simpl. lra.
  - simpl. rewrite IH by lia. unfold running_sum. simpl. lra.
Qed.

Lemma partial_sums_nondecreasing (acc : Q) (xs : list Q) (i : nat) :
  Forall (fun x => 0 <= x) xs ->
  (S i < List.length xs)%nat ->
  nth i (partial_sums acc xs) 0 <= nth (S i) (partial_sums acc xs) 0.
Proof.
  intros H. revert acc i. induction H as [| x xs Hx Hxs IH]; intros acc i Hi;
    simpl in Hi; [lia |].
  destruct i as [| i].
  - destruct Hxs as [| y ys Hy _]; simpl in *; [lia | lra].
  - simpl. apply IH. lia.
Qed.

(** ** Monthly sales *)

Lemma year_cell_cases (v : value) :
  year_cell v = VNull \/ exists y, year_cell v = VInt y.
Proof. destruct v; simpl; eauto. Qed.

Lemma month_cell_cases (v : value) :
  month_cell v = VNull \/ exists m, month_cell v = VInt m.
Proof. destruct v; simpl; eauto. Qed.

(** The fact rows once the monthly step has added [year] and [month]. *)
Lemma rows_with_year_month (fact : DataFrame) :
  let f1 := set_series fact "year" (map year_cell (column fact "order_date")) in
  let f2 := set_series f1 "month" (map month_cell (column f1 "order_date")) in
  rows f2 = map (fun r => upd (upd r "year" (year_cell (r "order_date")))
                              "month" (month_cell (r "order_date")))
                (rows fact).
Proof.
  cbv zeta. unfold column. rewrite !map_map.
  rewrite (set_series_map _ "month" (fun r => month_cell (r "order_date"))).
  rewrite (set_series_map _ "year" (fun r => year_cell (r "order_date"))).
  rewrite map_map. apply map_ext. intros r. reflexivity.
Qed.

Lemma keys_leb_lex (a b : Row) :
  month_row a -> month_row b ->
  keys_leb ["year"; "month"] a b = true -> lex_le (ym_of a) (ym_of b).
Proof.
  intros (y1 & m1 & q1 & Ay & Am & _) (y2 & m2 & q2 & By & Bm & _).
  unfold keys_leb, ym_of, lex_le. rewrite Ay, Am, By, Bm, !VInt_ltb, !int_of_VInt.
  cbn [fst snd].
  destruct (Z.ltb_spec y1 y2); [lia |].
  destruct (Z.ltb_spec y2 y1); [discriminate |].
  destruct (Z.ltb_spec m1 m2); [lia |].
  destruct (Z.ltb_spec m2 m1); [discriminate | lia].
Qed.

Lemma lex_le_trans (a b c : Z * Z) : lex_le a b -> lex_le b c -> lex_le a c.
Proof. unfold lex_le. lia. Qed.

Lemma sorted_months (l : list Row) :
  Forall month_row l ->
  Sorted (fun a b => keys_leb ["year"; "month"] a b = true) l ->
  StronglySorted lex_le (map ym_of l).
Proof.
  intros Hall Hs. apply Sorted_StronglySorted; [exact lex_le_trans |].
  induction Hs as [| a l Hs IH Hhd]; simpl; [constructor |].
  inversion Hall as [| ? ? Ha Hl]; subst.
  constructor; [now apply IH |].
  destruct Hhd as [| b l Hab]; simpl; constructor.
  inversion Hl; subst. now apply keys_leb_lex.
Qed.

(** The keys of the monthly groups are integer (year, month) pairs. *)
Lemma monthly_group_keys (fact : DataFrame) (k : Row) :
  let f1 := set_series fact "year" (map year_cell (column fact "order_date")) in
  let f2 := set_series f1 "month" (map month_cell (column f1 "order_date")) in
  In k (group_keys ["year"; "month"] (rows f2)) ->
  exists y m, k "year" = VInt y /\ k "month" = VInt m.
Proof.
  cbv zeta. rewrite rows_with_year_month. unfold group_keys.
  rewrite sort_by_In. intros H. apply keep_first_sound in H. destruct H as [H _].
  apply filter_In in H. destruct H as [H Hnn].
  apply in_map_iff in H. destruct H as [r [<- _]].
  unfold no_null in Hnn. cbn [forallb] in Hnn.
  unfold upd in *. cbn in *.
  destruct (year_cell_cases (r "order_date")) as [E | [y E]];
    rewrite E in *; [discriminate |].
  destruct (month_cell_cases (r "order_date")) as [E' | [m E']];
    rewrite E' in *; [discriminate |].
  eauto.
Qed.

Lemma column_numbers (l : list Row) (c : string) :
  Forall (fun r : Row => exists q, r c = VNum q) l ->
  map (fun r : Row => r c) l = map VNum (map (fun r : Row => as_num (r c)) l).
Proof.
  induction 1 as [| r l [q Hq] _ IH]; simpl; [reflexivity |].
  rewrite IH, Hq. reflexivity.
Qed.

Lemma column_years (l : list Row) :
  Forall month_row l ->
  map (fun r : Row => r "year") l = map (fun ym => VInt (fst ym)) (map ym_of l) /\
  map (fun r : Row => r "month") l = map (fun ym => VInt (snd ym)) (map ym_of l).
Proof.
  induction 1 as [| r l (y & m & q & Hy & Hm & _) _ [IH1 IH2]]; simpl;
    [split; reflexivity |].
  rewrite IH1, IH2. unfold ym_of at 1 3. cbn [fst snd].
  rewrite Hy, Hm, !int_of_VInt. split; reflexivity.
Qed.

(** The monthly table in the exact arithmetic of the embedding. *)
Lemma monthly_sales_exact (fact : DataFrame) :
  let monthly := snd (monthly_sales fact) in
  exists (yms : list (Z * Z)) (revs cums : list Q),
    column monthly "year" = map (fun ym => VInt (fst ym)) yms /\
    column monthly "month" = map (fun ym => VInt (snd ym)) yms /\
    StronglySorted lex_le yms /\
    column monthly "monthly_revenue" = map VNum revs /\
    column monthly "cumulative_revenue" = map VNum cums /\
    List.length cums = List.length revs /\
    (forall i, (i < List.length revs)%nat -> nth i cums 0 == running_sum revs i) /\
    (Forall (fun x => 0 <= x) revs ->
     forall i, (S i < List.length cums)%nat -> nth i cums 0 <= nth (S i) cums 0).
Proof.
  cbv zeta. unfold monthly_sales.
  destruct (has_col fact "order_date" && has_col fact "sales_amount").
  2: { exists [], [], []. cbn. repeat split; try constructor;
       intros; simpl in *; lia. }
  cbv zeta. cbn [snd].
  set (f1 := set_series fact "year" _).
  set (f2 := set_series f1 "month" _).
  set (m0 := agg (groupby f2 ["year"; "month"]) ["year"; "month"] _).
  set (S := sort_values m0 ["year"; "month"]).
  assert (H0 : Forall month_row (rows m0)).
  { unfold m0, agg, groupby. cbn [rows]. rewrite map_map.
    apply Forall_forall. intros r Hr. apply in_map_iff in Hr.
    destruct Hr as [k [<- Hk]]. unfold f2, f1 in Hk.
    apply monthly_group_keys in Hk. destruct Hk as (y & m & Hy & Hm).
    exists y, m. eexists. cbn. repeat split; [exact Hy | exact Hm]. }
  assert (HS : Forall month_row (rows S)).
  { unfold S, sort_values. cbn [rows]. apply Forall_forall. intros r Hr.
    apply sort_by_In in Hr. rewrite Forall_forall in H0. now apply H0. }
  assert (Hsorted : Sorted (fun a b => keys_leb ["year"; "month"] a b = true) (rows S)).
  { unfold S, sort_values. cbn [rows]. apply sort_by_Sorted.
    intros a b. apply keys_leb_total. }
  set (revs := map (fun r : Row => as_num (r "monthly_revenue")) (rows S)).
  assert (Hrev : column S "monthly_revenue" = map VNum revs).
  { unfold column, revs. apply column_numbers.
    apply Forall_forall. intros r Hr. rewrite Forall_forall in HS.
    destruct (HS r Hr) as (_ & _ & q & _ & _ & Hq). eauto. }
  rewrite Hrev. unfold cumsum. rewrite cumsum_from_numbers.
  assert (Hlen : List.length (map VNum (partial_sums 0 revs)) = List.length (rows S)).
  { rewrite length_map, length_partial_sums. unfold revs. apply length_map. }
  destruct (column_years (rows S) HS) as [Hy Hm].
  exists (map ym_of (rows S)), revs, (partial_sums 0 revs).
  split; [rewrite column_set_series_other by (congruence || assumption); exact Hy |].
  split; [rewrite column_set_series_other by (congruence || assumption); exact Hm |].
  split; [now apply sorted_months |].
  split; [rewrite column_set_series_other by (congruence || assumption); exact Hrev |].
  split; [now apply column_set_series_same |].
  split; [apply length_partial_sums |].
  split.
  - intros i Hi. rewrite partial_sums_running by assumption. lra.
  - intros Hnn i Hi. rewrite length_partial_sums in Hi.
    now apply partial_sums_nondecreasing.
Qed.


(** C6, as the code has it.  The monthly table of any fact frame lists
    integer (year, month) pairs in ascending order.  Provided the sales
    amounts of the fact frame add up, in magnitude, to less than 2^63 (so
    that no sum of them leaves the int64 range): the cumulative revenue at
    each row is the sum of the monthly revenues of the rows up to and
    including it, and it never decreases from a row to the next when no
    monthly revenue is negative. *)
Theorem monthly_sales_sorted_running (fact : DataFrame) :
  let monthly := snd (monthly_sales fact) in
  (exists yms : list (Z * Z),
     column monthly "year" = map (fun ym => VInt (fst ym)) yms /\
     column monthly "month" = map (fun ym => VInt (snd ym)) yms /\
     StronglySorted lex_le yms) /\
  (abs_total (column fact "sales_amount") < inject_Z (2 ^ 63) ->
   exists revs cums : list Q,
     column monthly "monthly_revenue" = map VNum revs /\
     column monthly "cumulative_revenue" = map VNum cums /\
     List.length cums = List.length revs /\
     (forall i, (i < List.length revs)%nat -> nth i cums 0 == running_sum revs i) /\
     (Forall (fun x => 0 <= x) revs ->
      forall i, (S i < List.length cums)%nat -> nth i cums 0 <= nth (S i) cums 0)).
Proof.
  cbv zeta.
  destruct (monthly_sales_exact fact)
    as (yms & revs & cums & Hy & Hm & Hs & Hr & Hc & Hl & Hrun & Hmono).
  split.
  - exists yms. auto.
  - intros _. exists revs, cums. auto.
Qed.

(** C6 as stated fails: with 100 of sales in January and a return of 50 in
    February, the cumulative revenue goes from 100 down to 50. *)
Lemma cumulative_revenue_decreases :
  exists fact,
    build_fact (sanitize no_datetime no_numeric return_df) = Ok fact /\
    let monthly := snd (monthly_sales fact) in
    column monthly "year" = [VInt 2024; VInt 2024] /\
    column monthly "month" = [VInt 1; VInt 2] /\
    column monthly "monthly_revenue" = [VNum 100; VNum (-50)] /\
    column monthly "cumulative_revenue" = [VNum 100; VNum 50] /\
    ~ 100 <= 50.
Proof.
  eexists. split; [apply build_fact_sanitize |]. cbv zeta.
  repeat split; try (vm_compute; reflexivity).
  intros H. apply Qle_bool_iff in H. discriminate.
Qed.

(** ** Column lengths *)

Lemma length_column (f : DataFrame) (c : string) :
  List.length (column f c) = List.length (rows f).
Proof. unfold column. apply length_map. Qed.

Lemma rows_set_series_length (f : DataFrame) (c : string) (vs : list value) :
  List.length vs = List.length (rows f) ->
  List.length (rows (set_series f c vs)) = List.length (rows f).
Proof.
  intros H. pose proof (column_set_series_same f c vs H) as E.
  apply (f_equal (@List.length value)) in E. rewrite length_column in E.
  congruence.
Qed.

(** ** The scenario of the specification

    One row: order 1 of customer C1 for product P1 on 2024-01-05, quantity
    2, sales 100, discount 10, profit 20. *)

Example scenario_tables :
  let work := sanitize no_datetime no_numeric scenario_df in
  exists dim fact,
    dim_date work = Ok dim /\
    build_fact work = Ok fact /\
    column dim "date_key" = [VInt 20240105] /\
    column dim "day_name" = [VStr "Friday"] /\
    column fact "sales_id" = [VInt 1] /\
    column fact "order_date_key" = [VInt 20240105] /\
    column fact "gross_sales" = [VNum 110] /\
    column fact "discount_pct" = [VNum (10 # 110)] /\
    let cm := customer_metrics 0 fact in
    let monthly := snd (monthly_sales fact) in
    column cm "customer_id" = [VStr "C1"] /\
    column cm "total_revenue" = [VNum 100] /\
    column cm "total_orders" = [VInt 1] /\
    column cm "avg_order_value" = [VNum 100] /\
    column cm "R" = [VNum 4] /\ column cm "F" = [VInt 1] /\ column cm "M" = [VInt 1] /\
    column monthly "year" = [VInt 2024] /\ column monthly "month" = [VInt 1] /\
    column monthly "monthly_revenue" = [VNum 100] /\
    column monthly "cumulative_revenue" = [VNum 100].
Proof.
  cbv zeta. eexists. eexists.
  split; [vm_compute; reflexivity |].
  split; [apply build_fact_sanitize |].
  repeat split; vm_compute; reflexivity.
Qed.

Example scenario_written_tables :
  match pipeline no_datetime no_numeric 0 [] scenario_df with
  | Ok db =>
      map fst db = ["sa_monthly_sales"; "sa_customer_metrics"; "sa_fact_sales";
                    "sa_dim_date"; "sa_dim_product"; "sa_dim_customer"]
      /\ snd (export_tables db []) = Ok tt
  | Raise _ => False
  end.
Proof. vm_compute. split; reflexivity. Qed.

(** * Further properties *)

(** ** Header normalisation *)

Ltac each_ascii c :=
  destruct c as [[] [] [] [] [] [] [] []]; try reflexivity; try discriminate.

Lemma normal_char_idem (c : ascii) : normal_char (normal_char c) = normal_char c.
Proof. each_ascii c. Qed.

Lemma normal_char_not_space (c : ascii) :
  is_space c = false -> is_space (normal_char c) = false.
Proof. each_ascii c. Qed.

Lemma normal_char_clean (c : ascii) :
  let d := normal_char c in
  Ascii.eqb d " " = false /\ Ascii.eqb d "-" = false /\ is_upper d = false.
Proof. cbv zeta. each_ascii c; repeat split. Qed.

Lemma map_string_map_string (f g : ascii -> ascii) (s : string) :
  map_string f (map_string g s) = map_string (fun c => f (g c)) s.
Proof. induction s as [| c s IH]; simpl; [reflexivity | now rewrite IH]. Qed.

Lemma normalize_col_chars (s : string) :
  normalize_col s = map_string normal_char (strip s).
Proof. unfold normalize_col. now rewrite !map_string_map_string. Qed.

Lemma lstrip_rstrip_fixed (s : string) :
  lstrip s = s -> lstrip (rstrip s) = rstrip s.
Proof.
  destruct s as [| c s]; [reflexivity |]. simpl.
  destruct (is_space c) eqn:E.
  - intros H. exfalso.
    assert (L : forall t, (String.length (lstrip t) <= String.length t)%nat).
    { induction t as [| a t IH]; simpl; [lia |]. destruct (is_space a); simpl; lia. }
    pose proof (L s) as Hl. rewrite H in Hl. simpl in Hl. lia.
  - intros _. destruct (rstrip s); simpl; now rewrite E.
Qed.

Lemma lstrip_idem (s : string) : lstrip (lstrip s) = lstrip s.
Proof.
  induction s as [| c s IH]; [reflexivity |]. simpl.
  destruct (is_space c) eqn:E; [exact IH |]. simpl. now rewrite E.
Qed.

Lemma rstrip_idem (s : string) : rstrip (rstrip s) = rstrip s.
Proof.
  induction s as [| c s IH]; [reflexivity |]. simpl.
  destruct (rstrip s) as [| c' s'] eqn:E.
  - destruct (is_space c) eqn:Ec; simpl; [reflexivity | now rewrite Ec].
  - simpl in *. now rewrite IH.
Qed.

Lemma lstrip_map_fixed (s : string) :
  lstrip s = s -> lstrip (map_string normal_char s) = map_string normal_char s.
Proof.
  destruct s as [| c s]; [reflexivity |]. simpl.
  destruct (is_space c) eqn:E.
  - intros H. exfalso.
    assert (L : forall t, (String.length (lstrip t) <= String.length t)%nat).
    { induction t as [| a t IH]; simpl; [lia |]. destruct (is_space a); simpl; lia. }
    pose proof (L s) as Hl. rewrite H in Hl. simpl in Hl. lia.
  - intros _. now rewrite normal_char_not_space.
Qed.

Lemma rstrip_map_fixed (s : string) :
  rstrip s = s -> rstrip (map_string normal_char s) = map_string normal_char s.
Proof.
  induction s as [| c s IH]; [reflexivity |]. simpl.
  destruct (rstrip s) as [| c' s'] eqn:E.
  - destruct (is_space c) eqn:Ec; [discriminate |].
    intros H. injection H as <-. simpl. now rewrite normal_char_not_space.
  - intros H. injection H as H. rewrite <- H in *.
    rewrite IH by reflexivity. simpl. reflexivity.
Qed.

(** X1.  Normalising a header name twice is the same as normalising it
    once. *)
Theorem normalize_col_idempotent (s : string) :
  normalize_col (normalize_col s) = normalize_col s.
Proof.
  rewrite !normalize_col_chars.
  assert (Hl : lstrip (strip s) = strip s).
  { unfold strip. apply lstrip_rstrip_fixed, lstrip_idem. }
  assert (Hr : rstrip (strip s) = strip s) by apply rstrip_idem.
  unfold strip at 1.
  rewrite (lstrip_map_fixed _ Hl), (rstrip_map_fixed _ Hr).
  rewrite map_string_map_string. 
  generalize (strip s). intros t. induction t as [| c t IH]; simpl;
    [reflexivity | now rewrite IH, normal_char_idem].
Qed.

Lemma map_string_forall (p : ascii -> bool) (f : ascii -> ascii) (s : string) :
  (forall c, p (f c) = true) -> string_forall p (map_string f s) = true.
Proof.
  intros H. induction s as [| c s IH]; simpl; [reflexivity |].
  now rewrite H, IH.
Qed.

(** X2.  A normalised header name holds no space, no hyphen and no upper
    case letter. *)
Theorem normalize_col_clean (s : string) :
  string_forall (fun c => negb (Ascii.eqb c " ") && negb (Ascii.eqb c "-")
                          && negb (is_upper c))
                (normalize_col s) = true.
Proof.
  rewrite normalize_col_chars. apply map_string_forall. intros c.
  destruct (normal_char_clean c) as (H1 & H2 & H3). cbv zeta in *.
  now rewrite H1, H2, H3.
Qed.

(** ** Column resolver *)

Lemma dict_get_col_map (cols : list string) (l : string) :
  dict_get (col_map cols) l
  = option_map (fun cs => find_first cs cols) (dict_get expected_candidates l).
Proof.
  unfold col_map. induction expected_candidates as [| [k cs] d IH]; simpl;
    [reflexivity |].
  destruct (l =? k); [reflexivity | exact IH].
Qed.

Lemma resolved_find_first (cols : list string) (l : string) :
  resolved cols l
  = match dict_get expected_candidates l with
    | Some cs => find_first cs cols
    | None => None
    end.
Proof.
  unfold resolved. rewrite dict_get_col_map.
  destruct (dict_get expected_candidates l) as [cs |]; simpl; [| reflexivity].
  destruct (find_first cs cols); reflexivity.
Qed.

Lemma find_first_split (cands cols : list string) (a : string) :
  find_first cands cols = Some a ->
  exists pre post,
    cands = (pre ++ a :: post)%list /\
    Forall (fun c => ~ In c cols) pre /\ In a cols.
Proof.
  unfold find_first. induction cands as [| c cs IH]; simpl; [discriminate |].
  destruct (mem c cols) eqn:E.
  - intros H. injection H as <-. exists [], cs. repeat split.
    + constructor.
    + now apply mem_In.
  - intros H. destruct (IH H) as (pre & post & -> & Hpre & Ha).
    exists (c :: pre), post. repeat split; [| exact Ha].
    constructor; [| exact Hpre]. intros Hin. apply mem_In in Hin. congruence.
Qed.

Lemma find_first_none (cands cols : list string) :
  find_first cands cols = None <-> Forall (fun c => ~ In c cols) cands.
Proof.
  unfold find_first. induction cands as [| c cs IH]; simpl.
  - split; [constructor | reflexivity].
  - destruct (mem c cols) eqn:E.
    + split; [discriminate |]. intros H. inversion H as [| ? ? Hc _]; subst.
      exfalso. apply Hc. now apply mem_In.
    + rewrite IH. split.
      * intros H. constructor; [| exact H]. intros Hin. apply mem_In in Hin.
        congruence.
      * intros H. now inversion H.
Qed.

(** X3.  A logical field resolves to the first of its candidate names that
    is a column of the header: the resolved name is in the header, is one
    of the candidates, and no candidate listed before it is in the header. *)
Theorem resolved_first_match (cols : list string) (l a : string) :
  resolved cols l = Some a ->
  exists cands pre post,
    dict_get expected_candidates l = Some cands /\
    cands = (pre ++ a :: post)%list /\
    Forall (fun c => ~ In c cols) pre /\
    In a cols.
Proof.
  rewrite resolved_find_first.
  destruct (dict_get expected_candidates l) as [cs |]; [| discriminate].
  intros H. destruct (find_first_split _ _ _ H) as (pre & post & E & Hpre & Ha).
  exists cs, pre, post. auto.
Qed.

Lemma resolved_first_match_witness :
  exists cands pre post,
    dict_get expected_candidates "quantity" = Some cands /\
    cands = (pre ++ "qty" :: post)%list /\
    Forall (fun c => ~ In c ["order_id"; "qty"]) pre /\
    In "qty" ["order_id"; "qty"].
Proof.
  apply (resolved_first_match ["order_id"; "qty"] "quantity" "qty").
  reflexivity.
Defined.

(** X4.  A logical field is absent exactly when none of its candidate
    names is a column of the header. *)
Theorem resolved_absent_iff (cols : list string) (l : string) (cands : list string) :
  dict_get expected_candidates l = Some cands ->
  (resolved cols l = None <-> Forall (fun c => ~ In c cols) cands).
Proof.
  intros H. rewrite resolved_find_first, H. apply find_first_none.
Qed.

Lemma resolved_absent_iff_witness :
  resolved (tl sample_header) "order_id" = None <->
  Forall (fun c => ~ In c (tl sample_header)) ["order_id"; "order_id"].
Proof.
  apply (resolved_absent_iff (tl sample_header) "order_id" ["order_id"; "order_id"]).
  reflexivity.
Defined.

(** X5.  A header that already carries the canonical name of a logical
    field resolves the field to that name, whatever synonyms it also
    carries. *)
Theorem resolved_canonical (cols : list string) (l : string) :
  In l copied_fields -> In l cols -> resolved cols l = Some l.
Proof.
  intros Hl Hc. apply mem_In in Hc. rewrite resolved_find_first.
  unfold copied_fields in Hl. simpl in Hl.
  repeat (destruct Hl as [<- | Hl];
          [cbn; unfold find_first; cbn [find]; now rewrite Hc |]).
  contradiction.
Qed.

Lemma resolved_canonical_witness :
  resolved ["qty"; "quantity"] "quantity" = Some "quantity".
Proof.
  apply (resolved_canonical ["qty"; "quantity"] "quantity").
  - unfold copied_fields. simpl. tauto.
  - simpl. tauto.
Defined.

(** X6.  After normalisation no header name holds a hyphen, so the
    candidate "sub-category" is never the resolved column of any field. *)
Theorem hyphen_candidate_never_resolved (raw : list string) (l : string) :
  resolved (normalize_cols raw) l <> Some "sub-category".
Proof.
  intros H. rewrite resolved_find_first in H.
  destruct (dict_get expected_candidates l) as [cs |]; [| discriminate].
  destruct (find_first_split _ _ _ H) as (_ & _ & _ & _ & Hin).
  unfold normalize_cols in Hin. apply in_map_iff in Hin.
  destruct Hin as [s [Hs _]].
  assert (Hc : string_forall (fun c => negb (Ascii.eqb c "-")) (normalize_col s) = true).
  { rewrite normalize_col_chars. apply map_string_forall. intros c.
    destruct (normal_char_clean c) as (_ & H2 & _). cbv zeta in H2. now rewrite H2. }
  rewrite Hs in Hc. discriminate.
Qed.

(** ** Copies and coercions of the sanitizer *)

Lemma length_zip_upd (rs : list Row) (c : string) (vs : list value) :
  List.length (zip_upd rs c vs) = List.length rs.
Proof.
  revert vs. induction rs as [| r rs IH]; intros vs; simpl; [reflexivity |].
  destruct vs; simpl; now rewrite IH.
Qed.

(** A copy leaves the frame with no row or with the rows of the raw frame. *)
Lemma copy_col_rows (df w : DataFrame) (l : string) :
  (rows w = [] \/ List.length (rows w) = List.length (rows df)) ->
  rows (copy_col df w l None) = [] \/
  List.length (rows (copy_col df w l None)) = List.length (rows df).
Proof.
  intros H. unfold copy_col. destruct (resolved (columns df) l) as [a |].
  - right. unfold set_series. cbn [rows]. destruct (rows w) as [| r rs] eqn:E.
    + unfold column. now rewrite !length_map.
    + rewrite length_zip_upd. destruct H as [H | H]; [discriminate | exact H].
  - unfold set_scalar. cbn [rows]. destruct H as [-> | H]; [now left |].
    right. now rewrite length_map.
Qed.

Lemma fold_copy_rows (df : DataFrame) (ls : list string) (w : DataFrame) :
  (rows w = [] \/ List.length (rows w) = List.length (rows df)) ->
  let w' := fold_left (fun w l => copy_col df w l None) ls w in
  rows w' = [] \/ List.length (rows w') = List.length (rows df).
Proof.
  revert w. induction ls as [| l ls IH]; intros w H; simpl; [exact H |].
  apply IH. now apply copy_col_rows.
Qed.

(** A copy into another column keeps a column that was copied before. *)
Lemma copy_col_keeps_column (df w : DataFrame) (l l' : string) (vs : list value) :
  l' <> l ->
  List.length vs = List.length (rows df) ->
  column w l = vs ->
  column (copy_col df w l' None) l = vs.
Proof.
  intros Hn Hlen Hcol. unfold copy_col.
  destruct (resolved (columns df) l') as [a |].
  - unfold column, set_series in *. cbn [rows].
    destruct (rows w) as [| r rs] eqn:E.
    + simpl in Hcol. subst vs. simpl in Hlen.
      destruct (rows df); [reflexivity | discriminate].
    + rewrite zip_upd_other by congruence. exact Hcol.
  - unfold column, set_scalar in *. cbn [rows]. rewrite map_map.
    rewrite <- Hcol. apply map_ext. intros r. apply upd_other. congruence.
Qed.

Lemma fold_copy_keeps_column (df : DataFrame) (l : string) (vs : list value)
    (ls : list string) (w : DataFrame) :
  ~ In l ls ->
  List.length vs = List.length (rows df) ->
  column w l = vs ->
  column (fold_left (fun w l => copy_col df w l None) ls w) l = vs.
Proof.
  revert w. induction ls as [| l' ls IH]; intros w Hn Hlen Hcol; simpl;
    [exact Hcol |].
  apply IH; [intros H; apply Hn; now right | exact Hlen |].
  apply copy_col_keeps_column; try assumption.
  intros ->. apply Hn. now left.
Qed.

Lemma copy_col_sets_column (df w : DataFrame) (l a : string) :
  resolved (columns df) l = Some a ->
  (rows w = [] \/ List.length (rows w) = List.length (rows df)) ->
  column (copy_col df w l None) l = column df a.
Proof.
  intros Hr H. unfold copy_col. rewrite Hr.
  unfold column at 1, set_series. cbn [rows].
  destruct (rows w) as [| r rs] eqn:E.
  - rewrite map_map. erewrite map_ext; [apply map_id |].
    intros v. apply upd_same.
  - apply zip_upd_same. destruct H as [H | H]; [discriminate |].
    unfold column. now rewrite length_map.
Qed.

Lemma copied_fields_NoDup : NoDup copied_fields.
Proof.
  unfold copied_fields.
  repeat (constructor; [simpl; intuition discriminate |]). constructor.
Qed.

Lemma NoDup_split_at {A : Type} (x : A) (l : list A) :
  NoDup l -> In x l -> exists pre post, l = (pre ++ x :: post)%list /\ ~ In x post.
Proof.
  intros Hnd Hin. destruct (in_split _ _ Hin) as (pre & post & ->).
  exists pre, post. split; [reflexivity |].
  apply NoDup_remove_2 in Hnd. intros H. apply Hnd. apply in_or_app. now right.
Qed.

(** X7.  The copy of a logical field that has a source column is that
    column, cell for cell and in the same order. *)
Theorem build_work_copies (df : DataFrame) (l a : string) :
  In l copied_fields ->
  resolved (columns df) l = Some a ->
  column (build_work df) l = column df a.
Proof.
  intros Hl Hr.
  destruct (NoDup_split_at l _ copied_fields_NoDup Hl) as (pre & post & E & Hpost).
  unfold build_work. rewrite E, fold_left_app. cbn [fold_left].
  apply fold_copy_keeps_column; [exact Hpost | apply length_column |].
  apply copy_col_sets_column; [exact Hr |].
  apply (fold_copy_rows df pre empty_frame). now left.
Qed.

Lemma build_work_copies_witness :
  column (build_work scenario_df) "sales" = column scenario_df "sales".
Proof.
  apply (build_work_copies scenario_df "sales" "sales").
  - unfold copied_fields. simpl. tauto.
  - reflexivity.
Defined.

(** X8.  The working frame never has more rows than the raw frame. *)
Theorem sanitize_row_count (pd : value -> option Z) (pn : value -> option Q)
    (df : DataFrame) :
  (List.length (rows (sanitize pd pn df)) <= List.length (rows df))%nat.
Proof.
  rewrite rows_sanitize, rows_coerced.
  eapply Nat.le_trans; [apply filter_length_le |].
  eapply Nat.le_trans; [apply filter_length_le |].
  rewrite length_map.
  destruct (fold_copy_rows df copied_fields empty_frame (or_introl eq_refl))
    as [H | H]; unfold build_work; rewrite H; simpl; lia.
Qed.

(** X9.  After the coercions the two date columns hold only dates and
    nulls and the four numeric columns only numbers and nulls: a value
    that does not parse has become null. *)
Theorem coerced_column_types (pd : value -> option Z) (pn : value -> option Q)
    (df : DataFrame) :
  Forall (fun r : Row =>
            date_or_null (r "order_date") = true /\
            date_or_null (r "ship_date") = true /\
            num_or_null (r "sales") = true /\
            num_or_null (r "quantity") = true /\
            num_or_null (r "discount") = true /\
            num_or_null (r "profit") = true)
         (rows (coerced pd pn df)) /\
  incl (rows (sanitize pd pn df)) (rows (coerced pd pn df)).
Proof.
  split.
  - rewrite rows_coerced. apply Forall_forall. intros r Hr.
    apply in_map_iff in Hr. destruct Hr as [r0 [<- _]].
    unfold coerce_row, upd. cbn.
    repeat split;
      match goal with
      | |- date_or_null (to_datetime_cell _ ?v) = true =>
          destruct (to_datetime_cell_cases pd v) as [-> | [t ->]]; reflexivity
      | |- num_or_null (to_numeric_cell _ ?v) = true =>
          destruct (to_numeric_cell_cases pn v) as [-> | [q ->]]; reflexivity
      end.
  - rewrite rows_sanitize. intros r Hr.
    apply filter_In in Hr. destruct Hr as [Hr _].
    apply filter_In in Hr. destruct Hr as [Hr _]. exact Hr.
Qed.

(** ** Dimensions *)

Lemma project_dedup_sound (work : DataFrame) (cols : list string) (d : Row) :
  In d (rows (drop_duplicates (project work cols))) ->
  exists r, In r (rows work) /\ forall k, In k cols -> d k = r k.
Proof.
  unfold drop_duplicates, project. cbn [columns rows]. intros Hd.
  apply keep_first_sound in Hd. destruct Hd as [Hd _].
  apply in_map_iff in Hd. destruct Hd as [r [<- Hr]].
  exists r. split; [exact Hr |]. intros k Hk. apply mem_In in Hk. now rewrite Hk.
Qed.

Lemma project_dedup_complete (work : DataFrame) (cols : list string) (r : Row) :
  In r (rows work) ->
  exists d, In d (rows (drop_duplicates (project work cols))) /\
            row_eqb cols r d = true.
Proof.
  unfold drop_duplicates, project. cbn [columns rows]. intros Hr.
  set (p := fun (r : Row) (k : string) => if mem k cols then r k else VNull).
  assert (Hp : In (p r) (map p (rows work))) by now apply in_map.
  destruct (keep_first_complete cols _ [] _ Hp) as [[s [[] _]] | [d [Hd Ed]]].
  exists d. split; [exact Hd |].
  unfold row_eqb in *. rewrite forallb_forall in *. intros k Hk.
  specialize (Ed k Hk). unfold p in Ed. apply mem_In in Hk. now rewrite Hk in Ed.
Qed.

(** X10.  The product dimension has the four product columns; its rows are
    working rows restricted to them, every working row equals one of its
    rows on the four columns, and no two of its rows are equal on all
    four. *)
Theorem dim_product_distinct_rows (work : DataFrame) :
  let dim := dim_product work in
  columns dim = product_cols /\
  (forall d, In d (rows dim) ->
     exists r, In r (rows work) /\ forall k, In k product_cols -> d k = r k) /\
  (forall r, In r (rows work) ->
     exists d, In d (rows dim) /\ row_eqb product_cols r d = true) /\
  ForallOrdPairs (fun a b => row_eqb product_cols b a = false) (rows dim).
Proof.
  cbv zeta. unfold dim_product. split; [reflexivity |]. split; [| split].
  - intros d. apply project_dedup_sound.
  - intros r. apply project_dedup_complete.
  - unfold drop_duplicates. cbn [rows]. apply keep_first_distinct.
Qed.

Section KeyIntegrity.

Variable pd : value -> option Z.
Variable pn : value -> option Q.

(** X11.  Every customer id and every product id of the fact table is the
    id of a row of the customer dimension, respectively of the product
    dimension. *)
Theorem fact_keys_in_dimensions (df : DataFrame) :
  let work := sanitize pd pn df in
  exists fact,
    build_fact work = Ok fact /\
    (forall v, In v (column fact "customer_id") ->
       exists d, In d (rows (dim_customer work)) /\
                 value_eqb v (d "customer_id") = true) /\
    (forall v, In v (column fact "product_id") ->
       exists d, In d (rows (dim_product work)) /\
                 value_eqb v (d "product_id") = true).
Proof.
  cbv zeta. eexists. split; [apply build_fact_sanitize |]. split.
  - intros v Hv. rewrite fact_column_carried in Hv
      by (unfold carried_cols; simpl; tauto).
    unfold column in Hv. apply in_map_iff in Hv. destruct Hv as [r [<- Hr]].
    destruct (project_dedup_complete _ customer_cols r Hr) as [d [Hd E]].
    exists d. split; [exact Hd |].
    unfold row_eqb in E. rewrite forallb_forall in E. apply E.
    unfold customer_cols. simpl. tauto.
  - intros v Hv. rewrite fact_column_carried in Hv
      by (unfold carried_cols; simpl; tauto).
    unfold column in Hv. apply in_map_iff in Hv. destruct Hv as [r [<- Hr]].
    destruct (project_dedup_complete _ product_cols r Hr) as [d [Hd E]].
    exists d. split; [exact Hd |].
    unfold row_eqb in E. rewrite forallb_forall in E. apply E.
    unfold product_cols. simpl. tauto.
Qed.

End KeyIntegrity.

(** ** Date keys *)

(** X12.  The date key of a calendar date gives the date back: the year is
    the key divided by 10000, the month the hundreds of the rest and the
    day the units, so two calendar dates with the same key are the same. *)
Theorem date_key_decodes (c : civil) :
  valid_date c ->
  year c = (date_key c / 10000)%Z /\
  month c = (date_key c / 100 mod 100)%Z /\
  day c = (date_key c mod 100)%Z /\
  forall c', valid_date c' -> date_key c' = date_key c -> c' = c.
Proof.
  destruct c as [y m d]. unfold valid_date, date_key. cbn [year month day].
  intros [Hm Hd]. pose proof (days_in_month_bounds y m) as Hb.
  assert (E1 : ((y * 10000 + m * 100 + d) / 10000 = y)%Z).
  { symmetry. apply (Z.div_unique _ 10000 y (m * 100 + d)); lia. }
  assert (E2 : ((y * 10000 + m * 100 + d) / 100 = y * 100 + m)%Z).
  { symmetry. apply (Z.div_unique _ 100 (y * 100 + m) d); lia. }
  assert (E3 : ((y * 10000 + m * 100 + d) mod 100 = d)%Z).
  { symmetry. apply (Z.mod_unique _ 100 (y * 100 + m) d); lia. }
  assert (E4 : ((y * 100 + m) mod 100 = m)%Z).
  { symmetry. apply (Z.mod_unique _ 100 y m); lia. }
  rewrite E1, E2, E3, E4. repeat split; try reflexivity.
  intros [y' m' d']. cbn [year month day]. intros [Hm' Hd'] Hk.
  pose proof (days_in_month_bounds y' m') as Hb'.
  assert (y' = y) by lia. subst y'.
  assert (m' = m) by lia. subst m'.
  f_equal. lia.
Qed.

Lemma date_key_decodes_witness :
  year (civil_of jan_5_2024) = (20240105 / 10000)%Z /\
  month (civil_of jan_5_2024) = (20240105 / 100 mod 100)%Z /\
  day (civil_of jan_5_2024) = (20240105 mod 100)%Z.
Proof.
  destruct (date_key_decodes (civil_of jan_5_2024) (valid_civil_of_days _))
    as (Hy & Hm & Hd & _).
  change (date_key (civil_of jan_5_2024)) with 20240105%Z in Hy, Hm, Hd.
  auto.
Defined.

(** ** Date dimension of a run *)

Lemma date_key_later (t : Z) (k : nat) :
  (0 < k)%nat ->
  (date_key (civil_of t) < date_key (civil_of (t + Z.of_nat k * NS_PER_DAY)))%Z.
Proof.
  induction k as [| k IH]; [lia |]. intros _.
  replace (t + Z.of_nat (S k) * NS_PER_DAY)%Z
    with (t + Z.of_nat k * NS_PER_DAY + NS_PER_DAY)%Z by lia.
  pose proof (date_key_add_day (t + Z.of_nat k * NS_PER_DAY)) as H.
  destruct k as [| k].
  - replace (t + Z.of_nat 0 * NS_PER_DAY)%Z with t in H by lia.
    replace (t + Z.of_nat 0 * NS_PER_DAY + NS_PER_DAY)%Z with (t + NS_PER_DAY)%Z by lia.
    exact H.
  - assert (0 < S k)%nat by lia. specialize (IH H0). lia.
Qed.

Lemma sorted_map_seq (f : nat -> Z) (a n : nat) :
  (forall i j, (i < j)%nat -> (f i < f j)%Z) ->
  StronglySorted Z.lt (map f (seq a n)).
Proof.
  intros Hf. revert a. induction n as [| n IH]; intros a; simpl; constructor.
  - apply IH.
  - apply Forall_forall. intros y Hy. apply in_map_iff in Hy.
    destruct Hy as [j [<- Hj]]. apply in_seq in Hj. apply Hf. lia.
Qed.

Lemma sorted_lt_NoDup (l : list Z) : StronglySorted Z.lt l -> NoDup l.
Proof.
  induction 1 as [| a l _ IH Hall]; constructor; [| exact IH].
  intros Hin. rewrite Forall_forall in Hall. specialize (Hall a Hin). lia.
Qed.

Lemma day_keys_sorted (lo : Z) (n : nat) :
  StronglySorted Z.lt
    (map (fun k => date_key (civil_of (lo + Z.of_nat k * NS_PER_DAY))) (seq 0 n)).
Proof.
  apply sorted_map_seq. intros i j Hij.
  replace (lo + Z.of_nat j * NS_PER_DAY)%Z
    with (lo + Z.of_nat i * NS_PER_DAY + Z.of_nat (j - i) * NS_PER_DAY)%Z by lia.
  apply date_key_later. lia.
Qed.

(** X13.  When the working frame has a row, the date dimension is built:
    it has [(max - min).days + 1] rows, row [k] dated [min + k] days, and
    its date keys grow strictly from row to row, so no key occurs twice. *)
Theorem date_dimension_of_run (pd : value -> option Z) (pn : value -> option Q)
    (df : DataFrame) :
  rows (sanitize pd pn df) <> [] ->
  exists (dim : DataFrame) (lo hi : Z) (keys : list Z),
    dim_date (sanitize pd pn df) = Ok dim /\
    date_min (column (sanitize pd pn df) "order_date") = VDate lo /\
    date_max (column (sanitize pd pn df) "order_date") = VDate hi /\
    (lo <= hi)%Z /\
    Z.of_nat (List.length (rows dim)) = ((hi - lo) / NS_PER_DAY + 1)%Z /\
    column dim "date"
    = map (fun k => VDate (lo + Z.of_nat k * NS_PER_DAY))
          (seq 0 (List.length (rows dim))) /\
    column dim "date_key" = map VInt keys /\
    StronglySorted Z.lt keys /\
    NoDup keys.
Proof.
  intros Hne.
  assert (Hall : Forall (fun r : Row => exists t, r "order_date" = VDate t)
                        (rows (sanitize pd pn df))).
  { destruct (sanitize_rows_invariant pd pn df) as [_ H].
    apply Forall_forall. intros r Hr. rewrite Forall_forall in H.
    destruct (H r Hr) as (_ & _ & _ & Ht & _). exact Ht. }
  destruct (dim_date_contiguous _ Hne Hall)
    as (lo & hi & Hlo & Hhi & Hbounds & Hdays & dim & Hdim & Hlen & Hdate & Hkey & _).
  cbv zeta in *.
  set (n := Z.to_nat ((hi - lo) / NS_PER_DAY + 1)) in *.
  assert (Hn : List.length (rows dim) = n) by (unfold n; lia).
  exists dim, lo, hi,
    (map (fun k => date_key (civil_of (lo + Z.of_nat k * NS_PER_DAY))) (seq 0 n)).
  split; [exact Hdim |]. split; [exact Hlo |]. split; [exact Hhi |].
  split.
  { destruct (rows (sanitize pd pn df)) as [| r rs]; [now elim Hne |].
    inversion Hbounds as [| ? ? [t [_ Ht]] _]. lia. }
  split; [exact Hlen |].
  split; [rewrite Hn; exact Hdate |].
  split; [rewrite Hkey, map_map; reflexivity |].
  split; [apply day_keys_sorted | apply sorted_lt_NoDup, day_keys_sorted].
Qed.

Lemma return_df_has_rows :
  rows (sanitize no_datetime no_numeric return_df) <> [].
Proof. vm_compute. discriminate. Qed.

Lemma date_dimension_of_run_witness :
  exists (dim : DataFrame) (lo hi : Z) (keys : list Z),
    dim_date (sanitize no_datetime no_numeric return_df) = Ok dim /\
    date_min (column (sanitize no_datetime no_numeric return_df) "order_date") = VDate lo /\
    date_max (column (sanitize no_datetime no_numeric return_df) "order_date") = VDate hi /\
    (lo <= hi)%Z /\
    Z.of_nat (List.length (rows dim)) = ((hi - lo) / NS_PER_DAY + 1)%Z /\
    column dim "date"
    = map (fun k => VDate (lo + Z.of_nat k * NS_PER_DAY))
          (seq 0 (List.length (rows dim))) /\
    column dim "date_key" = map VInt keys /\
    StronglySorted Z.lt keys /\
    NoDup keys.
Proof.
  exact (date_dimension_of_run no_datetime no_numeric return_df return_df_has_rows).
Defined.

(** The February return of [return_df] is 33 days after the January order:
    the date dimension has 34 rows. *)
Example return_df_date_dimension :
  match dim_date (sanitize no_datetime no_numeric return_df) with
  | Ok dim => List.length (rows dim) = 34%nat
  | Raise _ => False
  end.
Proof. vm_compute. reflexivity. Qed.

(** ** The range of exact arithmetic on the sample sheets *)

Example int64_range_bounds :
  int64_range (inject_Z (2 ^ 63 - 1)) /\ int64_range (inject_Z (- 2 ^ 63)) /\
  ~ int64_range (inject_Z (2 ^ 63)).
Proof.
  unfold int64_range. repeat split; try (apply Qle_bool_iff; reflexivity);
    try reflexivity.
  intros [_ H]. revert H. apply Qle_not_lt, Qle_refl.
Qed.

Example return_df_sales_in_range :
  exists fact,
    build_fact (sanitize no_datetime no_numeric return_df) = Ok fact /\
    abs_total (column fact "sales_amount") == 150 /\
    abs_total (column fact "sales_amount") < inject_Z (2 ^ 63).
Proof.
  eexists. split; [apply build_fact_sanitize |].
  split; vm_compute; reflexivity.
Qed.
